(** * ideal-ml: the remote-config synchronisation layer ([src/services/github.ts])

    A shallow embedding of the GitHub-backed model registry client: the
    hand-written YAML decoder ([parseYaml], [parseYamlValue]), the record
    normaliser ([normalizeModel], [validateStatus]), the config decoder
    ([parseConfigFile]), the result cache ([getCache], [setCache]) and the
    fetch orchestration ([fetchModelsFromGitHub]); then the callers of this
    layer in the page: the file access ([fetchFileContent], the two file
    links), the settings form, the state of [App] and its list of models,
    and the search of the list.

    Conventions of the embedding.
    - A JavaScript string is a Rocq [string]; each character stands for one
      code unit below 256 (what [atob] produces).
    - A JavaScript number is a binary64 float ([PrimFloat.float]).
    - A thrown exception is the [Throw] branch of [Result].
    - Built-ins of the host whose definition is not part of this repository
      ([JSON.parse], [JSON.stringify], [Date] parsing, [atob], the number to
      string conversion, the network) are variables of the sections below.
    - [localStorage] is a finite map from keys to strings whose reads and
      writes succeed. *)

From Stdlib Require Import ZArith String Ascii List Bool.
From Stdlib Require Import PrimFloat SpecFloat FloatOps.
From stdpp Require Import base option list gmap strings pretty.

Set Warnings "-register-all".
Local Open Scope string_scope.
Local Open Scope list_scope.

(** ** Exceptions *)

Inductive Exn : Type :=
| TypeError                       (* property read on null/undefined, failed ToPrimitive *)
| SyntaxError                     (* JSON.parse on malformed text *)
| InvalidCharacterError           (* atob on text that is not base64 *)
| NetworkError                    (* fetch rejected: the host's own TypeError *)
| Error (message : string).       (* throw new Error(message) *)

Inductive Result (A : Type) : Type :=
| Ok (a : A)
| Throw (e : Exn).
Arguments Ok {A} a.
Arguments Throw {A} e.

#[global] Instance Result_ret : MRet Result := fun A a => Ok a.

#[global] Instance Result_bind : MBind Result := fun A B k r =>
  match r with
  | Ok a => k a
  | Throw e => Throw e
  end.

Definition returns {A : Type} (r : Result A) : Prop := exists a, r = Ok a.

(** ** String primitives used by the source *)

Module Str.

(** WhiteSpace and LineTerminator code units below 256: TAB, LF, VT, FF,
    CR, SP, NBSP. *)
Definition is_whitespace (c : ascii) : bool :=
  match nat_of_ascii c with
  | 9 | 10 | 11 | 12 | 13 | 32 | 160 => true
  | _ => false
  end.

Fixpoint trimStart (s : string) : string :=
  match s with
  | String c r => if is_whitespace c then trimStart r else s
  | EmptyString => EmptyString
  end.

Definition trimEnd (s : string) : string :=
  String.rev (trimStart (String.rev s)).

(** [s.trim()] *)
Definition trim (s : string) : string := trimEnd (trimStart s).

(** [s.startsWith(p)] *)
Definition startsWith (p s : string) : bool := String.prefix p s.

(** [s.endsWith(p)] *)
Definition endsWith (p s : string) : bool :=
  String.prefix (String.rev p) (String.rev s).

(** [s.slice(n)] for [0 <= n] *)
Fixpoint slice_from (n : nat) (s : string) : string :=
  match n, s with
  | O, _ => s
  | S n', String _ r => slice_from n' r
  | S _, EmptyString => EmptyString
  end.

(** [s.slice(a, b)] for [0 <= a] and [0 <= b] *)
Definition slice (a b : nat) (s : string) : string :=
  String.substring a (b - a) s.

(** [s.slice(1, -1)] *)
Definition slice_1_m1 (s : string) : string :=
  slice 1 (String.length s - 1) s.

(** [s.indexOf(c)] for a one-character needle; [None] stands for -1. *)
Fixpoint indexOf (c : ascii) (s : string) : option nat :=
  match s with
  | EmptyString => None
  | String d r =>
      if Ascii.eqb d c then Some O
      else match indexOf c r with
           | Some i => Some (S i)
           | None => None
           end
  end.

(** [s.includes(c)] *)
Definition includes (c : ascii) (s : string) : bool :=
  match indexOf c s with Some _ => true | None => false end.

(** [s.split(c)] for a one-character separator. *)
Fixpoint split (c : ascii) (s : string) : list string :=
  match s with
  | EmptyString => [EmptyString]
  | String d r =>
      if Ascii.eqb d c then EmptyString :: split c r
      else match split c r with
           | h :: t => String d h :: t
           | [] => [String d EmptyString]
           end
  end.

(** [parts.join(sep)] *)
Definition join (sep : string) (parts : list string) : string :=
  String.concat sep parts.

(** A string used as a condition: the empty string is falsy. *)
Definition nonempty (s : string) : bool := negb (String.eqb s "").

Definition is_digit (c : ascii) : bool :=
  let n := nat_of_ascii c in (48 <=? n)%nat && (n <=? 57)%nat.

(** [\d+] against a whole string *)
Definition digits1 (s : string) : bool :=
  nonempty s && forallb is_digit (list_ascii_of_string s).

(** The decimal numeral of an array index or an HTTP status. *)
Definition of_nat (n : nat) : string := pretty n.

End Str.

(** ** Numbers *)

Module Num.

(** The value of a digit string read in base ten. *)
Definition digits_value (s : string) : Z :=
  fold_left (fun acc c => (10 * acc + (Z.of_nat (nat_of_ascii c) - 48))%Z)
            (list_ascii_of_string s) 0%Z.

(** [m / 10^k], rounded to the nearest binary64 (ties to even), with the
    sign [neg]. *)
Definition of_decimal (neg : bool) (m : Z) (k : nat) : float :=
  match m with
  | Zpos p =>
      SF2Prim (SFdiv prec emax (S754_finite neg p 0)
                     (S754_finite false (Z.to_pos (10 ^ Z.of_nat k)) 0))
  | _ => SF2Prim (S754_zero neg)
  end.

(** [/^-?\d+(\.\d+)?$/.test(s)] *)
Definition is_decimal_literal (s : string) : bool :=
  let body := if Str.startsWith "-" s then Str.slice_from 1 s else s in
  match Str.split "." body with
  | [i] => Str.digits1 i
  | [i; f] => Str.digits1 i && Str.digits1 f
  | _ => false
  end.

(** [parseFloat(s)] on the strings accepted by [is_decimal_literal], the
    only ones the source passes to it. *)
Definition parseFloat (s : string) : float :=
  let neg := Str.startsWith "-" s in
  let body := if neg then Str.slice_from 1 s else s in
  match Str.split "." body with
  | [i] => of_decimal neg (digits_value i) 0
  | [i; f] => of_decimal neg (digits_value (i +:+ f)) (String.length f)
  | _ => nan
  end.

(** A number used as a condition: [0], [-0] and [NaN] are falsy. *)
Definition truthy (x : float) : bool :=
  negb (PrimFloat.eqb x 0 || PrimFloat.is_nan x).

End Num.

(** ** JavaScript values

    The values the program handles at run time: what [JSON.parse] and
    [parseYaml] build. An object is its set of own properties; an array is
    the list of its elements. *)

Inductive JsValue : Type :=
| JUndefined
| JNull
| JBool (b : bool)
| JNum (x : float)
| JStr (s : string)
| JArr (items : list JsValue)
| JObj (props : gmap string JsValue).

Module Js.

(** A value used as a condition ([!v], [v && _], [v || _], [v ? _ : _]). *)
Definition truthy (v : JsValue) : bool :=
  match v with
  | JUndefined | JNull => false
  | JBool b => b
  | JNum x => Num.truthy x
  | JStr s => Str.nonempty s
  | JArr _ | JObj _ => true
  end.

(** [a || b] *)
Definition or (a b : JsValue) : JsValue := if truthy a then a else b.

(** [v.k] for the property names the program reads ([id], [name],
    [metrics], [models], [lastFetched], ...). None of them is defined on a
    built-in prototype, so the read of an object sees its own properties
    and the read of any other value but [null] and [undefined] gives
    [undefined]. *)
Definition get (v : JsValue) (k : string) : Result JsValue :=
  match v with
  | JUndefined | JNull => Throw TypeError
  | JObj props => Ok (default JUndefined (props !! k))
  | _ => Ok JUndefined
  end.

(** The value a read [v.k] gives when it does not throw. *)
Definition field (v : JsValue) (k : string) : JsValue :=
  match v with
  | JObj props => default JUndefined (props !! k)
  | _ => JUndefined
  end.

(** [Array.isArray(v)] *)
Definition isArray (v : JsValue) : bool :=
  match v with JArr _ => true | _ => false end.

(** [v === s] for a string [s] *)
Definition strict_eq_string (v : JsValue) (s : string) : bool :=
  match v with JStr t => String.eqb t s | _ => false end.

Section Conversions.

(** [Number::toString] of the host. *)
Variable Number_toString : float -> string.

(** [String(v)]. A plain object converts through the inherited
    [Object.prototype.toString] unless an own [toString] property shadows
    it; the shadowing value is never callable, the inherited [valueOf]
    returns the object itself, and the conversion throws. An array
    converts through [join], where [null] and [undefined] elements give
    the empty string. *)
Fixpoint ToString (v : JsValue) : Result string :=
  match v with
  | JUndefined => Ok "undefined"
  | JNull => Ok "null"
  | JBool true => Ok "true"
  | JBool false => Ok "false"
  | JNum x => Ok (Number_toString x)
  | JStr s => Ok s
  | JObj props =>
      match props !! "toString" with
      | Some _ => Throw TypeError
      | None => Ok "[object Object]"
      end
  | JArr items =>
      parts ← (fix each (l : list JsValue) : Result (list string) :=
                 match l with
                 | [] => Ok []
                 | x :: r =>
                     s ← match x with
                         | JUndefined | JNull => Ok ""
                         | _ => ToString x
                         end;
                     t ← each r;
                     Ok (s :: t)
                 end) items;
      Ok (Str.join "," parts)
  end.

End Conversions.

End Js.

(** ** The YAML-like decoder *)

(** The one-character strings of the double and the single quote. *)
Definition DQUOTE : string := String "034" EmptyString.
Definition SQUOTE : string := String "039" EmptyString.

(** [parseYamlValue(value)] *)
Definition parseYamlValue (value : string) : JsValue :=
  if negb (Str.nonempty value) then JStr ""
  else if (Str.startsWith DQUOTE value && Str.endsWith DQUOTE value)
          || (Str.startsWith SQUOTE value && Str.endsWith SQUOTE value)
  then JStr (Str.slice_1_m1 value)
  else if Num.is_decimal_literal value then JNum (Num.parseFloat value)
  else if String.eqb value "true" then JBool true
  else if String.eqb value "false" then JBool false
  else if String.eqb value "null" || String.eqb value "~" then JNull
  else JStr value.

(** An object under construction in [parseYaml]: created by [{}] and filled
    by assignments [o[k] = v]. The assignment of the name [__proto__] goes to
    the setter inherited from [Object.prototype] as long as the object has
    that prototype, so the flag is part of the state. *)
Record PlainObj : Type := mkPlainObj {
  nullProto : bool;
  own : gmap string JsValue
}.

Definition emptyObj : PlainObj := mkPlainObj false ∅.

(** [o[k] = v] where [v] is a scalar or, for the keys [metrics] and [files],
    a nested object. *)
Definition obj_assign (o : PlainObj) (k : string) (v : JsValue) : PlainObj :=
  if String.eqb k "__proto__" && negb (nullProto o) then
    match v with
    | JNull => mkPlainObj true (own o)
    | _ => o
    end
  else mkPlainObj (nullProto o) (<[k := v]> (own o)).

Definition obj_value (o : PlainObj) : JsValue := JObj (own o).

(** [Object.keys(o).length > 0] *)
Definition has_keys (o : PlainObj) : bool := (0 <? size (own o))%nat.

Record YamlState : Type := mkYamlState {
  result : list JsValue;
  currentObject : option PlainObj;
  currentNested : option PlainObj;
  currentNestedKey : option string
}.

(** [if (currentNested && currentNestedKey &&
         Object.keys(currentNested).length > 0)
       currentObject[currentNestedKey] = currentNested;] *)
Definition attach_nested (o : PlainObj) (nested : option PlainObj)
    (key : option string) : PlainObj :=
  match nested, key with
  | Some n, Some k =>
      if Str.nonempty k && has_keys n then obj_assign o k (obj_value n) else o
  | _, _ => o
  end.

(** Whether the pending nested object is the one [attach_nested] stores. *)
Definition nested_pending (nested : option PlainObj) (key : option string) : bool :=
  match nested, key with
  | Some n, Some k => Str.nonempty k && has_keys n
  | _, _ => false
  end.

(** The body of the loop of [parseYaml], for one line. The test
    [currentObject && trimmed.includes(":")] and the call
    [trimmed.indexOf(":")] that follows it are one match on [Str.indexOf]. *)
Definition parseYaml_line (st : YamlState) (line : string) : YamlState :=
  let trimmed := Str.trim line in
  if negb (Str.nonempty trimmed) || Str.startsWith "#" trimmed then st
  else if Str.startsWith "- " trimmed then
    let result' :=
      match currentObject st with
      | Some o =>
          result st ++ [obj_value (attach_nested o (currentNested st) (currentNestedKey st))]
      | None => result st
      end in
    let afterDash := Str.trim (Str.slice_from 2 trimmed) in
    let fresh :=
      if Str.nonempty afterDash then
        match Str.split ":" afterDash with
        | key :: valueParts =>
            if Str.nonempty key && (0 <? length valueParts)%nat
            then obj_assign emptyObj (Str.trim key)
                   (parseYamlValue (Str.trim (Str.join ":" valueParts)))
            else emptyObj
        | [] => emptyObj
        end
      else emptyObj in
    mkYamlState result' (Some fresh) None None
  else
    match currentObject st, Str.indexOf ":" trimmed with
    | Some o, Some colonIndex =>
        let key := Str.trim (Str.slice 0 colonIndex trimmed) in
        let value := Str.trim (Str.slice_from (colonIndex + 1) trimmed) in
        if (String.eqb key "metrics" || String.eqb key "files")
           && negb (Str.nonempty value)
        then
          mkYamlState (result st)
            (Some (attach_nested o (currentNested st) (currentNestedKey st)))
            (Some emptyObj) (Some key)
        else
          let top_level :=
            if nested_pending (currentNested st) (currentNestedKey st) then
              mkYamlState (result st)
                (Some (obj_assign
                         (attach_nested o (currentNested st) (currentNestedKey st))
                         key (parseYamlValue value)))
                None None
            else
              mkYamlState (result st)
                (Some (obj_assign o key (parseYamlValue value)))
                (currentNested st) (currentNestedKey st) in
          match currentNested st, currentNestedKey st with
          | Some n, Some k =>
              if Str.nonempty k
                 && (Str.startsWith "      " line || Str.startsWith "    " line)
              then
                mkYamlState (result st) (Some o)
                  (Some (obj_assign n key (parseYamlValue value))) (Some k)
              else top_level
          | _, _ => top_level
          end
    | _, _ => st
    end.

(** The records collected by [parseYaml(content)]. *)
Definition parseYaml_records (content : string) : list JsValue :=
  let st := fold_left parseYaml_line (Str.split "010" content)
              (mkYamlState [] None None None) in
  match currentObject st with
  | Some o =>
      result st ++ [obj_value (attach_nested o (currentNested st) (currentNestedKey st))]
  | None => result st
  end.

(** [parseYaml(content)] *)
Definition parseYaml (content : string) : JsValue :=
  JArr (parseYaml_records content).

(** ** The data model ([src/types]) *)

Inductive ModelStatus : Type := development | staging | production | archived.

Definition status_name (s : ModelStatus) : string :=
  match s with
  | development => "development"
  | staging => "staging"
  | production => "production"
  | archived => "archived"
  end.

Record Metrics : Type := mkMetrics {
  accuracy : option float;
  latency : option float
}.

Record Files : Type := mkFiles {
  modelCard : option string;
  trainingScript : option string;
  featureScript : option string;
  inferenceScript : option string;
  modelFile : option string
}.

Record Model : Type := mkModel {
  id : string;
  name : string;
  version : string;
  description : string;
  framework : string;
  status : ModelStatus;
  owner : string;
  createdAt : string;
  updatedAt : string;
  metrics : option Metrics;
  files : option Files
}.

Record GitHubSettings : Type := mkSettings {
  repoOwner : string;
  repoName : string;
  branch : string;
  configPath : string;
  token : string
}.

(** ** The record normaliser *)

(** [validateStatus(status)] *)
Definition validateStatus (v : JsValue) : ModelStatus :=
  match v with
  | JStr s =>
      if String.eqb s "development" then development
      else if String.eqb s "staging" then staging
      else if String.eqb s "production" then production
      else if String.eqb s "archived" then archived
      else development
  | _ => development
  end.

(** [typeof v === "number" ? v : undefined] *)
Definition number_or_undefined (v : JsValue) : option float :=
  match v with JNum x => Some x | _ => None end.

(** [typeof v === "string" ? v : undefined] *)
Definition string_or_undefined (v : JsValue) : option string :=
  match v with JStr s => Some s | _ => None end.

Section Normalizer.

Variable Number_toString : float -> string.

(** [String(obj[k] || dflt)] *)
Definition string_field (obj : JsValue) (k dflt : string) : Result string :=
  v ← Js.get obj k;
  Js.ToString Number_toString (Js.or v (JStr dflt)).

(** [String(obj[k1] || obj[k2] || now)] *)
Definition time_field (obj : JsValue) (k1 k2 now : string) : Result string :=
  v1 ← Js.get obj k1;
  v2 ← Js.get obj k2;
  Js.ToString Number_toString (Js.or (Js.or v1 v2) (JStr now)).

(** [metricsObj ? { accuracy: ..., latency: ... } : undefined] *)
Definition metrics_group (metricsObj : JsValue) : Result (option Metrics) :=
  if Js.truthy metricsObj then
    a ← Js.get metricsObj "accuracy";
    l ← Js.get metricsObj "latency";
    Ok (Some (mkMetrics (number_or_undefined a) (number_or_undefined l)))
  else Ok None.

(** [filesObj ? { modelCard: ..., ..., modelFile: ... } : undefined] *)
Definition files_group (filesObj : JsValue) : Result (option Files) :=
  if Js.truthy filesObj then
    f1 ← Js.get filesObj "modelCard";
    f2 ← Js.get filesObj "trainingScript";
    f3 ← Js.get filesObj "featureScript";
    f4 ← Js.get filesObj "inferenceScript";
    f5 ← Js.get filesObj "modelFile";
    Ok (Some (mkFiles (string_or_undefined f1) (string_or_undefined f2)
                (string_or_undefined f3) (string_or_undefined f4)
                (string_or_undefined f5)))
  else Ok None.

(** [normalizeModel(item, index)]; [now] is the reading of
    [new Date().toISOString()] made by the call. *)
Definition normalizeModel (now : string) (item : JsValue) (index : nat)
    : Result Model :=
  let obj := item in
  filesObj ← Js.get obj "files";
  v_id ← string_field obj "id" ("model-" +:+ Str.of_nat index);
  v_name ← string_field obj "name" "Unnamed Model";
  v_version ← string_field obj "version" "1.0.0";
  v_description ← string_field obj "description" "";
  v_framework ← string_field obj "framework" "Unknown";
  v_status ← Js.get obj "status";
  v_owner ← string_field obj "owner" "Unknown";
  v_createdAt ← time_field obj "createdAt" "created_at" now;
  v_updatedAt ← time_field obj "updatedAt" "updated_at" now;
  metricsObj ← Js.get obj "metrics";
  v_metrics ← metrics_group metricsObj;
  v_files ← files_group filesObj;
  Ok (mkModel v_id v_name v_version v_description v_framework
        (validateStatus v_status) v_owner v_createdAt v_updatedAt
        v_metrics v_files).

(** [items.map((item, index) => normalizeModel(item, index))], the first
    element being at position [index]; [clock i] is the time read while
    the element at position [i] is normalised. *)
Fixpoint normalize_from (clock : nat -> string) (index : nat)
    (items : list JsValue) : Result (list Model) :=
  match items with
  | [] => Ok []
  | item :: rest =>
      m ← normalizeModel (clock index) item index;
      ms ← normalize_from clock (S index) rest;
      Ok (m :: ms)
  end.

(** ** The config decoder *)

Variable JSON_parse : string -> option JsValue.

(** [JSON.parse(text)], throwing on malformed text. *)
Definition JSON_parse_or_throw (text : string) : Result JsValue :=
  match JSON_parse text with
  | Some v => Ok v
  | None => Throw SyntaxError
  end.

Definition isYamlPath (path : string) : bool :=
  Str.endsWith ".yaml" path || Str.endsWith ".yml" path.

Definition MalformedConfig : Exn :=
  Error "Config file must contain an array of models".

(** The value [parseConfigFile] decodes from the text, before it looks
    for the record list. *)
Definition decodeConfig (content path : string) : Result JsValue :=
  if isYamlPath path then Ok (parseYaml content)
  else JSON_parse_or_throw content.

(** [Array.isArray(data) ? data : data.models] *)
Definition extractModels (data : JsValue) : Result JsValue :=
  if Js.isArray data then Ok data else Js.get data "models".

(** [parseConfigFile(content, path)] *)
Definition parseConfigFile (clock : nat -> string) (content path : string)
    : Result (list Model) :=
  data ← decodeConfig content path;
  modelsArray ← extractModels data;
  match modelsArray with
  | JArr items => normalize_from clock 0 items
  | _ => Throw MalformedConfig
  end.

End Normalizer.

(** ** Serialising canonical models

    The object [normalizeModel] builds for a model, as [JSON.stringify]
    receives it from [setCache]: every key of the literal is an own
    property, an unset optional one holding [undefined]. *)

Definition opt_number (x : option float) : JsValue :=
  match x with Some v => JNum v | None => JUndefined end.

Definition opt_string (x : option string) : JsValue :=
  match x with Some v => JStr v | None => JUndefined end.

Definition metrics_to_js (m : Metrics) : JsValue :=
  JObj (<["accuracy" := opt_number (accuracy m)]>
       (<["latency" := opt_number (latency m)]> ∅)).

Definition files_to_js (f : Files) : JsValue :=
  JObj (<["modelCard" := opt_string (modelCard f)]>
       (<["trainingScript" := opt_string (trainingScript f)]>
       (<["featureScript" := opt_string (featureScript f)]>
       (<["inferenceScript" := opt_string (inferenceScript f)]>
       (<["modelFile" := opt_string (modelFile f)]> ∅))))).

Definition model_to_js (m : Model) : JsValue :=
  JObj (<["id" := JStr (id m)]>
       (<["name" := JStr (name m)]>
       (<["version" := JStr (version m)]>
       (<["description" := JStr (description m)]>
       (<["framework" := JStr (framework m)]>
       (<["status" := JStr (status_name (status m))]>
       (<["owner" := JStr (owner m)]>
       (<["createdAt" := JStr (createdAt m)]>
       (<["updatedAt" := JStr (updatedAt m)]>
       (<["metrics" := match metrics m with
                       | Some x => metrics_to_js x
                       | None => JUndefined
                       end]>
       (<["files" := match files m with
                     | Some x => files_to_js x
                     | None => JUndefined
                     end]> ∅))))))))))).

Definition models_to_js (ms : list Model) : JsValue :=
  JArr (map model_to_js ms).

(** ** Persistent storage, the cache and the settings *)

Definition SETTINGS_KEY : string := "github_settings".
Definition CACHE_KEY : string := "github_cache".
Definition CACHE_TTL : Z := 5 * 60 * 1000.

(** [localStorage]: [ls !! k] is [localStorage.getItem(k)]. *)
Abbreviation Storage := (gmap string string).

(** [try { body } catch { handler }] *)
Definition try_catch {A : Type} (body handler : Result A) : Result A :=
  match body with
  | Ok a => Ok a
  | Throw _ => handler
  end.

(** [TimeClip(ToIntegerOrInfinity(x))] of a number given to [new Date];
    [None] stands for [NaN]. *)
Definition TimeClip (x : float) : option Z :=
  match Prim2SF x with
  | S754_zero _ => Some 0%Z
  | S754_finite s m e =>
      let a := Z.shiftl (Zpos m) e in
      if (a <=? 8640000000000000)%Z then Some (if s then (- a)%Z else a)
      else None
  | _ => None
  end.

(** [Date.now() - lastFetched > CACHE_TTL], where [None] is [NaN]: a
    comparison with [NaN] is false. *)
Definition expired (now : Z) (lastFetched : option Z) : bool :=
  match lastFetched with
  | Some t => (CACHE_TTL <? now - t)%Z
  | None => false
  end.

Section Cache.

Variable Number_toString : float -> string.
Variable JSON_parse : string -> option JsValue.
Variable JSON_stringify : JsValue -> string.
(** [Date.parse] of the host; [None] stands for [NaN]. *)
Variable Date_parse : string -> option Z.

(** [new Date(v).getTime()]: a string is parsed, an object or array is
    first converted to a string, any other value is converted to a number
    and clipped. *)
Definition Date_getTime (v : JsValue) : Result (option Z) :=
  match v with
  | JUndefined => Ok None
  | JNull => Ok (Some 0%Z)
  | JBool b => Ok (Some (if b then 1%Z else 0%Z))
  | JNum x => Ok (TimeClip x)
  | JStr s => Ok (Date_parse s)
  | JArr _ | JObj _ =>
      s ← Js.ToString Number_toString v;
      Ok (Date_parse s)
  end.

(** [getSettings()]; [JNull] is [null]. *)
Definition getSettings (ls : Storage) : Result JsValue :=
  match ls !! SETTINGS_KEY with
  | None => Ok JNull
  | Some stored =>
      if negb (Str.nonempty stored) then Ok JNull
      else try_catch (JSON_parse_or_throw JSON_parse stored) (Ok JNull)
  end.

(** [getCache()], called when [Date.now()] reads [now]. *)
Definition getCache (now : Z) (ls : Storage) : Result JsValue :=
  match ls !! CACHE_KEY with
  | None => Ok JNull
  | Some stored =>
      if negb (Str.nonempty stored) then Ok JNull
      else
        try_catch
          (cache ← JSON_parse_or_throw JSON_parse stored;
           raw ← Js.get cache "lastFetched";
           lastFetched ← Date_getTime raw;
           if expired now lastFetched then Ok JNull else Ok cache)
          (Ok JNull)
  end.

(** [setCache(models, repoUrl)], called when [new Date().toISOString()]
    reads [nowISO]. *)
Definition setCache (nowISO : string) (models : list Model) (repoUrl : string)
    (ls : Storage) : Storage :=
  let cache :=
    JObj (<["models" := models_to_js models]>
         (<["lastFetched" := JStr nowISO]>
         (<["repoUrl" := JStr repoUrl]> ∅))) in
  <[CACHE_KEY := JSON_stringify cache]> ls.

(** [saveSettings], [clearSettings], [invalidateCache] *)
Definition settings_to_js (s : GitHubSettings) : JsValue :=
  JObj (<["repoOwner" := JStr (repoOwner s)]>
       (<["repoName" := JStr (repoName s)]>
       (<["branch" := JStr (branch s)]>
       (<["configPath" := JStr (configPath s)]>
       (<["token" := JStr (token s)]> ∅))))).

Definition saveSettings (s : GitHubSettings) (ls : Storage) : Storage :=
  delete CACHE_KEY (<[SETTINGS_KEY := JSON_stringify (settings_to_js s)]> ls).

Definition clearSettings (ls : Storage) : Storage :=
  delete CACHE_KEY (delete SETTINGS_KEY ls).

Definition invalidateCache (ls : Storage) : Storage :=
  delete CACHE_KEY ls.

End Cache.

(** ** The network and the fetch *)

(** The arguments of a call [fetch(url, { headers })]. *)
Record Request : Type := mkRequest {
  url : string;
  headers : list (string * string)
}.

(** A response: [status_code] is [response.status], and [response.json()]
    parses [body]. *)
Record Response : Type := mkResponse {
  status_code : nat;
  body : string
}.

(** [response.ok]: the status is in the range 200-299. *)
Definition ok (response : Response) : bool :=
  (200 <=? status_code response)%nat && (status_code response <=? 299)%nat.

(** What a call returns: the [models] property of the cache entry as it was
    stored, or the list just decoded. *)
Inductive Models : Type :=
| FromCache (models : JsValue)
| Decoded (models : list Model).

(** A run of [fetchModelsFromGitHub]: its result, the storage it leaves and
    the requests it sent. *)
Record Run : Type := mkRun {
  outcome : Result Models;
  storage : Storage;
  requests : list Request
}.

Definition ConfigNotFound (path : string) : Exn :=
  Error ("Config file not found: " +:+ path).
Definition InvalidCredential : Exn := Error "Invalid GitHub token".
Definition RateLimitedOrDenied : Exn := Error "Rate limited or access denied".
Definition TransportError (code : nat) : Exn :=
  Error ("GitHub API error: " +:+ Str.of_nat code).

(** The branch [if (!response.ok) { ... }] of [fetchModelsFromGitHub]. *)
Definition classify (settings : GitHubSettings) (response : Response) : Exn :=
  if Nat.eqb (status_code response) 404 then ConfigNotFound (configPath settings)
  else if Nat.eqb (status_code response) 401 then InvalidCredential
  else if Nat.eqb (status_code response) 403 then RateLimitedOrDenied
  else TransportError (status_code response).

Definition repoUrl_of (settings : GitHubSettings) : string :=
  repoOwner settings +:+ "/" +:+ repoName settings.

Definition config_request (settings : GitHubSettings) : Request :=
  let base := [("Accept", "application/vnd.github.v3+json")] in
  mkRequest
    ("https://api.github.com/repos/" +:+ repoOwner settings +:+ "/"
       +:+ repoName settings +:+ "/contents/" +:+ configPath settings
       +:+ "?ref=" +:+ branch settings)
    (if Str.nonempty (token settings)
     then base ++ [("Authorization", "Bearer " +:+ token settings)]
     else base).

Section Fetch.

Variable Number_toString : float -> string.
Variable JSON_parse : string -> option JsValue.
Variable JSON_stringify : JsValue -> string.
Variable Date_parse : string -> option Z.
(** [atob] of the host; [None] when it throws. *)
Variable atob : string -> option string.
(** The network: the response to a request, [None] when [fetch] rejects. *)
Variable fetch : Request -> option Response.

(** The clock: [Date.now()] at the cache check, [new Date().toISOString()]
    while the record at a position is normalised, and at the cache write. *)
Variable now : Z.
Variable clock : nat -> string.
Variable nowISO : string.

(** The part of [fetchModelsFromGitHub] after a successful response:
    [response.json()], [atob(data.content)], [parseConfigFile]. *)
Definition decode_response (settings : GitHubSettings) (response : Response)
    : Result (list Model) :=
  data ← JSON_parse_or_throw JSON_parse (body response);
  raw ← Js.get data "content";
  encoded ← Js.ToString Number_toString raw;
  content ← match atob encoded with
            | Some text => Ok text
            | None => Throw InvalidCharacterError
            end;
  parseConfigFile Number_toString JSON_parse clock content (configPath settings).

(** [cached && cached.repoUrl === repoUrl] *)
Definition cache_hit (cached : JsValue) (repoUrl : string) : bool :=
  Js.truthy cached
  && match Js.get cached "repoUrl" with
     | Ok r => Js.strict_eq_string r repoUrl
     | Throw _ => false
     end.

(** [fetchModelsFromGitHub(settings)] run against the storage [ls]. *)
Definition fetchModelsFromGitHub (settings : GitHubSettings) (ls : Storage) : Run :=
  let repoUrl := repoUrl_of settings in
  match getCache Number_toString JSON_parse Date_parse now ls with
  | Throw e => mkRun (Throw e) ls []
  | Ok cached =>
      if cache_hit cached repoUrl then
        mkRun (models ← Js.get cached "models"; Ok (FromCache models)) ls []
      else
        let request := config_request settings in
        match fetch request with
        | None => mkRun (Throw NetworkError) ls [request]
        | Some response =>
            if negb (ok response) then
              mkRun (Throw (classify settings response)) ls [request]
            else
              match decode_response settings response with
              | Ok parsed =>
                  mkRun (Ok (Decoded parsed))
                    (setCache JSON_stringify nowISO parsed repoUrl ls)
                    [request]
              | Throw e => mkRun (Throw e) ls [request]
              end
        end
  end.

(** [`${prefix}${settings.repoOwner}/${settings.repoName}${infix}${settings.branch}/${path}`] *)
Definition repo_file_url (settings : JsValue) (prefix infix path : string)
    : Result string :=
  o ← Js.get settings "repoOwner";
  so ← Js.ToString Number_toString o;
  n ← Js.get settings "repoName";
  sn ← Js.ToString Number_toString n;
  b ← Js.get settings "branch";
  sb ← Js.ToString Number_toString b;
  Ok (prefix +:+ so +:+ "/" +:+ sn +:+ infix +:+ sb +:+ "/" +:+ path).

Definition NotConfigured : Exn := Error "GitHub not configured".

(** The guard at the head of [fetchFileContent]: the settings it goes on
    with, or the [NotConfigured] failure. *)
Definition fetchFileContent_settings (ls : Storage) : Result JsValue :=
  settings ← getSettings JSON_parse ls;
  if negb (Js.truthy settings) then Throw NotConfigured else Ok settings.

(** [getGitHubFileUrl(filePath)]; [None] is [null]. *)
Definition getGitHubFileUrl (filePath : string) (ls : Storage)
    : Result (option string) :=
  settings ← getSettings JSON_parse ls;
  if negb (Js.truthy settings) then Ok None
  else
    u ← repo_file_url settings "https://github.com/" "/blob/" filePath;
    Ok (Some u).

End Fetch.

(** ** Inputs of the decoder scenarios *)

Definition LF : string := String "010" EmptyString.

(** The six lines of the decoder scenario. *)
Definition scenario_text : string :=
  Str.join LF
    [ "- id: m1";
      "  name: Foo";
      "  metrics:";
      "    accuracy: 0.9";
      "- id: m2";
      "  status: bogus" ].

(** The binary64 number written [0.9]. *)
Definition number_0_9 : float := 0x1.ccccccccccccdp-1%float.

Definition scenario_record1 : JsValue :=
  JObj (<["id" := JStr "m1"]>
       (<["name" := JStr "Foo"]>
       (<["metrics" := JObj (<["accuracy" := JNum number_0_9]> ∅)]> ∅))).

Definition scenario_record2 : JsValue :=
  JObj (<["id" := JStr "m2"]> (<["status" := JStr "bogus"]> ∅)).

(** Two lines that hold the dash marker alone. *)
Definition bare_dashes_text : string := Str.join LF ["- "; "- "].

(** Two records written with the dash on a line of its own. *)
Definition bare_dash_records_text : string :=
  Str.join LF ["-"; "  id: m1"; "-"; "  id: m2"].

(** A bare dash after a record that is already open. *)
Definition dash_after_record_text : string :=
  Str.join LF ["- id: m1"; "-"; "  name: x"].

(** A record whose [id] is an object with an own [toString] property, as
    [JSON.parse] builds it from [{"id": {"toString": 1}}]. *)
Definition shadowed_toString_record : JsValue :=
  JObj (<["id" := JObj (<["toString" := JNum 1]> ∅)]> ∅).

(** A cache entry for the repository [o/r] whose [lastFetched] is not a
    date. *)
Definition stale_entry : gmap string JsValue :=
  <["models" := JArr []]>
  (<["lastFetched" := JStr "not a date"]>
  (<["repoUrl" := JStr "o/r"]> ∅)).

(** Sample inputs of the instances below. *)
Definition sample_settings : GitHubSettings :=
  mkSettings "o" "r" "main" "models.yaml" "".

Definition corrupted_storage : Storage :=
  <[SETTINGS_KEY := "{not json"]> (<[CACHE_KEY := "{not json"]> ∅).

(** The model normalised from the first record of the scenario at the time
    [2024-01-01T00:00:00.000Z]. *)
Definition scenario_model1 : Model :=
  mkModel "m1" "Foo" "1.0.0" "" "Unknown" development "Unknown"
    "2024-01-01T00:00:00.000Z" "2024-01-01T00:00:00.000Z"
    (Some (mkMetrics (Some number_0_9) None)) None.

(** The own properties of the record [{"metrics": null, "files": null}]. *)
Definition null_groups_props : gmap string JsValue :=
  <["metrics" := JNull]> (<["files" := JNull]> ∅).

Definition zero_metrics_text : string :=
  Str.join LF ["- id: m1"; "  metrics: 0"].

(** ** The strict format written and read back

    What the host's [JSON.parse] reads back from what its [JSON.stringify]
    wrote for a value: a property that holds [undefined] is dropped, an
    [undefined] array element becomes [null], a number that is not finite
    becomes [null] and the negative zero becomes [0]. *)

Definition json_number (x : float) : JsValue :=
  if is_nan x || is_infinity x then JNull
  else if is_zero x then JNum 0
  else JNum x.

Fixpoint json_image (v : JsValue) : JsValue :=
  match v with
  | JUndefined | JNull => JNull
  | JBool b => JBool b
  | JNum x => json_number x
  | JStr s => JStr s
  | JArr items => JArr (map json_image items)
  | JObj props =>
      JObj (omap (fun w => match w with
                           | JUndefined => None
                           | _ => Some (json_image w)
                           end) props)
  end.

(** The image of a property value: a property that holds [undefined] and a
    property that is absent both read as [undefined]. *)
Definition json_prop (w : JsValue) : JsValue :=
  match w with JUndefined => JUndefined | _ => json_image w end.

(** A number the strict format carries unchanged. *)
Definition json_exact (x : float) : Prop := json_number x = JNum x.

Definition json_exact_opt (x : option float) : Prop :=
  match x with Some v => json_exact v | None => True end.

(** Every metric value of the model is carried unchanged. *)
Definition json_exact_metrics (m : Model) : Prop :=
  match metrics m with
  | Some g => json_exact_opt (accuracy g) /\ json_exact_opt (latency g)
  | None => True
  end.

(** The string fields that [normalizeModel] would replace by a default when
    empty are not empty. *)
Definition fields_present (m : Model) : Prop :=
  Str.nonempty (id m) = true /\ Str.nonempty (name m) = true
  /\ Str.nonempty (version m) = true /\ Str.nonempty (framework m) = true
  /\ Str.nonempty (owner m) = true /\ Str.nonempty (createdAt m) = true
  /\ Str.nonempty (updatedAt m) = true.

(** [s || dflt] for strings *)
Definition fill (s dflt : string) : string :=
  if Str.nonempty s then s else dflt.

(** The model [normalizeModel] makes of the object of a model. *)
Definition renormalize (now : string) (index : nat) (m : Model) : Model :=
  mkModel (fill (id m) ("model-" +:+ Str.of_nat index))
    (fill (name m) "Unnamed Model") (fill (version m) "1.0.0")
    (description m) (fill (framework m) "Unknown") (status m)
    (fill (owner m) "Unknown") (fill (createdAt m) now) (fill (updatedAt m) now)
    (metrics m) (files m).

(** A model whose latency is infinite, as [normalizeModel] returns it for
    the record [{"id": "m1", ..., "metrics": {"latency": 1e999}}]. *)
Definition slow_model : Model :=
  mkModel "m1" "Foo" "1.0.0" "" "Unknown" development "Unknown"
    "2024-01-01T00:00:00.000Z" "2024-01-01T00:00:00.000Z"
    (Some (mkMetrics None (Some infinity))) None.

Definition slow_model_read_back : Model :=
  mkModel "m1" "Foo" "1.0.0" "" "Unknown" development "Unknown"
    "2024-01-01T00:00:00.000Z" "2024-01-01T00:00:00.000Z"
    (Some (mkMetrics None None)) None.

(** A cache entry for the repository [o/r] written at the first instant of
    2024, and the storage that holds it. *)
Definition fresh_entry : gmap string JsValue :=
  <["models" := JArr []]>
  (<["lastFetched" := JStr "2024-01-01T00:00:00.000Z"]>
  (<["repoUrl" := JStr "o/r"]> ∅)).

Definition sample_cache : JsValue :=
  JObj (<["models" := models_to_js [scenario_model1]]>
       (<["lastFetched" := JStr "2024-01-01T00:00:00.000Z"]>
       (<["repoUrl" := JStr "o/r"]> ∅))).

(** The instant [2024-01-01T00:00:00.000Z] in milliseconds. *)
Definition year_2024 : Z := 1704067200000.

(** ** Notions used in the statements *)

(** A value that is neither an array nor an object. *)
Definition is_scalar (v : JsValue) : bool :=
  match v with
  | JArr _ | JObj _ => false
  | _ => true
  end.

(** The shape of a record of the YAML decoder: every property but
    [metrics] and [files] holds a scalar. *)
Definition yaml_props (props : gmap string JsValue) : Prop :=
  forall k v, props !! k = Some v -> k <> "metrics" -> k <> "files" ->
              is_scalar v = true.

(** A record of the YAML decoder. *)
Definition yaml_record (v : JsValue) : Prop :=
  exists props, v = JObj props /\ yaml_props props.

(** The invariant of the loop of [parseYaml]. *)
Definition yaml_state_ok (st : YamlState) : Prop :=
  Forall yaml_record (result st)
  /\ (forall o, currentObject st = Some o -> yaml_props (own o))
  /\ (forall k, currentNestedKey st = Some k -> k = "metrics" \/ k = "files").

(** The value stored under [key] is absent, or present and not parseable as
    JSON. *)
Definition unreadable (JSON_parse : string -> option JsValue) (ls : Storage)
    (key : string) : Prop :=
  match ls !! key with
  | None => True
  | Some stored => JSON_parse stored = None
  end.

(** The string field [out] of a normalised model comes from the source
    value [obj[k]]: the string conversion of that value when it is truthy,
    the default [dflt] of the field otherwise. *)
Definition coerced (Number_toString : float -> string) (obj : JsValue)
    (k dflt out : string) : Prop :=
  exists v, Js.get obj k = Ok v
            /\ (if Js.truthy v then Js.ToString Number_toString v = Ok out
                else out = dflt).

(** ** Files of the repository ([fetchFileContent], [downloadGitHubFile]) *)

Definition FileNotFound (filePath : string) : Exn :=
  Error ("File not found: " +:+ filePath).
Definition FileFetchFailed (code : nat) : Exn :=
  Error ("Failed to fetch file: " +:+ Str.of_nat code).

(** The branch [if (!response.ok) { ... }] of [fetchFileContent]. *)
Definition classify_file (filePath : string) (response : Response) : Exn :=
  if Nat.eqb (status_code response) 404 then FileNotFound filePath
  else FileFetchFailed (status_code response).

(** A run of [fetchFileContent]: its result and the requests it sent. It
    writes nothing to the storage. *)
Record FileRun : Type := mkFileRun {
  file_outcome : Result string;
  file_requests : list Request
}.

Section Files.

Variable Number_toString : float -> string.
Variable JSON_parse : string -> option JsValue.
Variable atob : string -> option string.
Variable fetch : Request -> option Response.

(** The [url] and the [headers] that [fetchFileContent] builds from the
    stored settings, read in the order of the source: the three parts of
    the URL, then the token. *)
Definition file_request (settings : JsValue) (filePath : string)
    : Result Request :=
  o ← Js.get settings "repoOwner";
  so ← Js.ToString Number_toString o;
  n ← Js.get settings "repoName";
  sn ← Js.ToString Number_toString n;
  b ← Js.get settings "branch";
  sb ← Js.ToString Number_toString b;
  let url := "https://api.github.com/repos/" +:+ so +:+ "/" +:+ sn
               +:+ "/contents/" +:+ filePath +:+ "?ref=" +:+ sb in
  let base := [("Accept", "application/vnd.github.v3+json")] in
  t ← Js.get settings "token";
  if Js.truthy t then
    st ← Js.ToString Number_toString t;
    Ok (mkRequest url (base ++ [("Authorization", "Bearer " +:+ st)]))
  else Ok (mkRequest url base).

(** [atob((await response.json()).content)] *)
Definition decode_file (response : Response) : Result string :=
  data ← JSON_parse_or_throw JSON_parse (body response);
  raw ← Js.get data "content";
  encoded ← Js.ToString Number_toString raw;
  match atob encoded with
  | Some text => Ok text
  | None => Throw InvalidCharacterError
  end.

(** [fetchFileContent(filePath)] run against the storage [ls]. *)
Definition fetchFileContent (filePath : string) (ls : Storage) : FileRun :=
  match fetchFileContent_settings JSON_parse ls with
  | Throw e => mkFileRun (Throw e) []
  | Ok settings =>
      match file_request settings filePath with
      | Throw e => mkFileRun (Throw e) []
      | Ok request =>
          match fetch request with
          | None => mkFileRun (Throw NetworkError) [request]
          | Some response =>
              if negb (ok response) then
                mkFileRun (Throw (classify_file filePath response)) [request]
              else mkFileRun (decode_file response) [request]
          end
      end
  end.

(** [downloadGitHubFile(filePath)]; [None] is [null]. *)
Definition downloadGitHubFile (filePath : string) (ls : Storage)
    : Result (option string) :=
  settings ← getSettings JSON_parse ls;
  if negb (Js.truthy settings) then Ok None
  else
    u ← repo_file_url Number_toString settings
          "https://raw.githubusercontent.com/" "/refs/heads/" filePath;
    Ok (Some u).

End Files.

(** [error instanceof Error ? error.message : fallback]. Every exception of
    [Exn] is an instance of [Error] (the [DOMException] of [atob] inherits
    from it), so the fallback text is never used; the text of an exception
    that the host raised is the host's. *)
Definition message (host_message : Exn -> string) (e : Exn) : string :=
  match e with
  | Error m => m
  | _ => host_message e
  end.

(** ** The file viewer ([loadFile] of the component [ModelDetail]) *)

(** What a call of [loadFile] leaves: the content given to the setter
    ([None] is [null]), the text written to [errors[key]] ([None] when the
    entry is not written) and the requests sent. *)
Record FileLoad : Type := mkFileLoad {
  shown : option string;
  error_text : option string;
  load_requests : list Request
}.

Section FileViewer.

Variable Number_toString : float -> string.
Variable JSON_parse : string -> option JsValue.
Variable atob : string -> option string.
Variable fetch : Request -> option Response.
Variable host_message : Exn -> string.

(** [loadFile(filePath, setter, key)] once its promise has settled;
    [filePath = None] is [undefined]. *)
Definition loadFile (filePath : option string) (isConnected : bool)
    (ls : Storage) : FileLoad :=
  match filePath with
  | Some path =>
      if negb (Str.nonempty path) || negb isConnected then mkFileLoad None None []
      else
        let run := fetchFileContent Number_toString JSON_parse atob fetch path ls in
        match file_outcome run with
        | Ok content => mkFileLoad (Some content) (Some "") (file_requests run)
        | Throw e =>
            mkFileLoad None (Some (message host_message e)) (file_requests run)
        end
  | None => mkFileLoad None None []
  end.

End FileViewer.

(** ** The settings form (the component [Settings]) *)

(** The five text inputs of the form. *)
Record SettingsForm : Type := mkForm {
  form_repoOwner : string;
  form_repoName : string;
  form_branch : string;
  form_configPath : string;
  form_token : string
}.

(** The object [settings] that [handleTestConnection], [handleSubmit] and
    [handleRetry] build from the inputs. *)
Definition form_settings (f : SettingsForm) : GitHubSettings :=
  mkSettings (Str.trim (form_repoOwner f)) (Str.trim (form_repoName f))
    (fill (Str.trim (form_branch f)) "main")
    (fill (Str.trim (form_configPath f)) "models.yaml")
    (Str.trim (form_token f)).

(** [buildApiUrl()] *)
Definition buildApiUrl (f : SettingsForm) : string :=
  let owner := Str.trim (form_repoOwner f) in
  let repo := Str.trim (form_repoName f) in
  let br := fill (Str.trim (form_branch f)) "main" in
  let path := fill (Str.trim (form_configPath f)) "models.yaml" in
  "https://api.github.com/repos/" +:+ owner +:+ "/" +:+ repo +:+ "/contents/"
    +:+ path +:+ "?ref=" +:+ br.

(** The values of [testStatus]: ["idle"], ["testing"], ["success"] and
    ["error"]. *)
Inductive TestStatus : Type := test_idle | test_testing | test_success | test_error.

(** What [handleTestConnection] leaves once its promise has settled. *)
Record TestRun : Type := mkTestRun {
  testStatus : TestStatus;
  testError : option string;
  testDetails : option string;
  test_storage : Storage;
  test_requests : list Request
}.

Section SettingsForm.

Variable Number_toString : float -> string.
Variable JSON_parse : string -> option JsValue.
Variable JSON_stringify : JsValue -> string.
Variable Date_parse : string -> option Z.
Variable atob : string -> option string.
Variable fetch : Request -> option Response.
Variable now : Z.
Variable clock : nat -> string.
Variable nowISO : string.
Variable host_message : Exn -> string.

(** [`${models.length}`] for what [fetchModelsFromGitHub] returned: the
    length of a list or of a string, and the property [length] of any
    other value. *)
Definition models_length (models : Models) : Result string :=
  match models with
  | Decoded l => Ok (Str.of_nat (length l))
  | FromCache (JArr items) => Ok (Str.of_nat (length items))
  | FromCache (JStr s) => Ok (Str.of_nat (String.length s))
  | FromCache v =>
      len ← Js.get v "length";
      Js.ToString Number_toString len
  end.

(** [handleTestConnection()] with the inputs [f], run against [ls]. *)
Definition handleTestConnection (f : SettingsForm) (ls : Storage) : TestRun :=
  let settings := form_settings f in
  let apiUrl := buildApiUrl f in
  let run :=
    fetchModelsFromGitHub Number_toString JSON_parse JSON_stringify Date_parse
      atob fetch now clock nowISO settings (invalidateCache ls) in
  match (models ← outcome run; models_length models) with
  | Ok count =>
      mkTestRun test_success None
        (Some ("Success! Found " +:+ count +:+ " model(s)."))
        (storage run) (requests run)
  | Throw e =>
      mkTestRun test_error (Some (message host_message e))
        (Some ("API URL: " +:+ apiUrl)) (storage run) (requests run)
  end.

End SettingsForm.

(** ** The application state (the component [App]) *)

(** The values of [ConnectionStatus]: ["disconnected"], ["connecting"],
    ["connected"] and ["error"]. *)
Inductive ConnectionStatus : Type :=
  disconnected | connecting | connected | connection_error.

(** The state a handler of [App] leaves once its promise has settled, the
    storage and the requests sent. *)
Record AppRun : Type := mkAppRun {
  app_models : Models;
  connectionStatus : ConnectionStatus;
  connectionError : option string;
  isLoading : bool;
  app_storage : Storage;
  app_requests : list Request
}.

(** The value of the declared type [GitHubSettings] that a stored object
    is read as: its five properties, when each holds a string. *)
Definition settings_of_js (v : JsValue) : option GitHubSettings :=
  match Js.field v "repoOwner", Js.field v "repoName", Js.field v "branch",
        Js.field v "configPath", Js.field v "token" with
  | JStr o, JStr n, JStr b, JStr p, JStr t => Some (mkSettings o n b p t)
  | _, _, _, _, _ => None
  end.

Section App.

Variable Number_toString : float -> string.
Variable JSON_parse : string -> option JsValue.
Variable JSON_stringify : JsValue -> string.
Variable Date_parse : string -> option Z.
Variable atob : string -> option string.
Variable fetch : Request -> option Response.
Variable now : Z.
Variable clock : nat -> string.
Variable nowISO : string.
Variable host_message : Exn -> string.
(** [initialModels] of [./data/mockData], a module outside these sources. *)
Variable initialModels : list Model.

(** [loadModels(settings)]; [None] is [null]. *)
Definition loadModels (settings : option GitHubSettings) (ls : Storage)
    : AppRun :=
  match settings with
  | None => mkAppRun (Decoded initialModels) disconnected None false ls []
  | Some s =>
      let run :=
        fetchModelsFromGitHub Number_toString JSON_parse JSON_stringify
          Date_parse atob fetch now clock nowISO s ls in
      match outcome run with
      | Ok fetchedModels =>
          mkAppRun fetchedModels connected None false (storage run) (requests run)
      | Throw e =>
          mkAppRun (Decoded initialModels) connection_error
            (Some (message host_message e)) false (storage run) (requests run)
      end
  end.

(** [loadModels(getSettings())], for a stored value of the declared type
    [GitHubSettings | null]: a falsy value, or an object whose five
    properties hold strings. The result is [None] for any other stored
    value. *)
Definition loadStored (ls : Storage) : option AppRun :=
  match getSettings JSON_parse ls with
  | Ok v =>
      if negb (Js.truthy v) then Some (loadModels None ls)
      else s ← settings_of_js v; Some (loadModels (Some s) ls)
  | Throw _ => None
  end.

(** [handleRefresh()] *)
Definition handleRefresh (ls : Storage) : option AppRun :=
  loadStored (invalidateCache ls).

(** [handleSubmit] and [handleRetry] of the settings form, whose [onSave]
    is [handleSettingsSave] of [App]. *)
Definition Settings_handleSubmit (f : SettingsForm) (ls : Storage) : AppRun :=
  let settings := form_settings f in
  loadModels (Some settings)
    (invalidateCache (saveSettings JSON_stringify settings ls)).

(** [handleDisconnect] of the settings form. *)
Definition Settings_handleDisconnect (ls : Storage) : AppRun :=
  loadModels None (clearSettings ls).

End App.

(** ** The user record ([loadUserFromStorage], [saveUserToStorage]) *)

Definition USER_STORAGE_KEY : string := "ml_platform_user".

Section User.

Variable JSON_parse : string -> option JsValue.
Variable JSON_stringify : JsValue -> string.
(** [currentUser] of [./data/mockData], a module outside these sources. *)
Variable defaultUser : JsValue.

Definition loadUserFromStorage (ls : Storage) : Result JsValue :=
  match ls !! USER_STORAGE_KEY with
  | None => Ok defaultUser
  | Some stored =>
      if Str.nonempty stored
      then try_catch (JSON_parse_or_throw JSON_parse stored) (Ok defaultUser)
      else Ok defaultUser
  end.

Definition saveUserToStorage (user : JsValue) (ls : Storage) : Storage :=
  <[USER_STORAGE_KEY := JSON_stringify user]> ls.

End User.

(** ** The list of models edited in the page ([App], [ModelForm]) *)

(** [models.find((m) => m.id === id)] *)
Definition find_model (id0 : string) (models : list Model) : option Model :=
  List.find (fun m => String.eqb (id m) id0) models.

(** [handleDelete(id)]: the new list of models. *)
Definition handleDelete (id0 : string) (prev : list Model) : list Model :=
  List.filter (fun m => negb (String.eqb (id m) id0)) prev.

(** [generateId()], when [Date.now()] reads [nowMs]. *)
Definition generateId (nowMs : Z) : string := "model-" +:+ pretty nowMs.

(** An object of the type [Omit<Model, "id" | "createdAt" | "updatedAt">].
    For the two optional properties the outer [None] is an absent key, and
    [Some None] a key that holds [undefined]. *)
Record ModelData : Type := mkModelData {
  md_name : string;
  md_version : string;
  md_description : string;
  md_framework : string;
  md_status : ModelStatus;
  md_owner : string;
  md_metrics : option (option Metrics);
  md_files : option (option Files)
}.

(** [{ ...m, ...modelData, updatedAt: now }] *)
Definition updated_model (m : Model) (d : ModelData) (now : string) : Model :=
  mkModel (id m) (md_name d) (md_version d) (md_description d)
    (md_framework d) (md_status d) (md_owner d) (createdAt m) now
    (default (metrics m) (md_metrics d)) (default (files m) (md_files d)).

(** [{ ...modelData, id: generateId(), createdAt: now, updatedAt: now }] *)
Definition new_model (d : ModelData) (now : string) (nowMs : Z) : Model :=
  mkModel (generateId nowMs) (md_name d) (md_version d) (md_description d)
    (md_framework d) (md_status d) (md_owner d) now now
    (default None (md_metrics d)) (default None (md_files d)).

(** [handleSave(modelData)]: the new list of models, when
    [new Date().toISOString()] reads [now] and [Date.now()] reads [nowMs]. *)
Definition handleSave (now : string) (nowMs : Z) (editingModel : option Model)
    (modelData : ModelData) (prev : list Model) : list Model :=
  match editingModel with
  | Some e =>
      map (fun m => if String.eqb (id m) (id e)
                    then updated_model m modelData now else m) prev
  | None => new_model modelData now nowMs :: prev
  end.

Section ModelForm.

(** [parseFloat] of the host, on any text. *)
Variable parseFloat : string -> float.

(** The object that [handleSubmit] of the model form gives to [onSave],
    from the values of its inputs. *)
Definition ModelForm_handleSubmit (name version description framework : string)
    (status : ModelStatus) (owner accuracy latency : string) : ModelData :=
  let acc := if Str.nonempty accuracy
             then Some (parseFloat accuracy / 100)%float else None in
  let lat := if Str.nonempty latency then Some (parseFloat latency) else None in
  mkModelData name version description framework status owner
    (Some (if Str.nonempty accuracy || Str.nonempty latency
           then Some (mkMetrics acc lat) else None))
    None.

End ModelForm.

(** ** The search of the list ([ModelList]) *)

(** The lower case of a code unit below 256: the letters A-Z, and the
    letters from U+00C0 to U+00DE but the sign U+00D7, are 32 below their
    lower case. *)
Definition lower_unit (c : ascii) : ascii :=
  let n := nat_of_ascii c in
  if ((65 <=? n)%nat && (n <=? 90)%nat)
     || ((192 <=? n)%nat && (n <=? 222)%nat && negb (n =? 215)%nat)
  then ascii_of_nat (n + 32) else c.

(** [s.toLowerCase()] *)
Fixpoint toLowerCase (s : string) : string :=
  match s with
  | EmptyString => EmptyString
  | String c r => String (lower_unit c) (toLowerCase r)
  end.

(** [s.includes(t)] for a string [t] *)
Fixpoint includes_text (t s : string) : bool :=
  String.prefix t s
  || match s with
     | EmptyString => false
     | String _ r => includes_text t r
     end.

(** The value of the status filter: ["all"] or a status. *)
Inductive StatusFilter : Type := AllStatus | OnlyStatus (s : ModelStatus).

Definition filter_value (f : StatusFilter) : string :=
  match f with
  | AllStatus => "all"
  | OnlyStatus s => status_name s
  end.

Definition matchesSearch (searchTerm : string) (model : Model) : bool :=
  includes_text (toLowerCase searchTerm) (toLowerCase (name model))
  || includes_text (toLowerCase searchTerm) (toLowerCase (description model))
  || includes_text (toLowerCase searchTerm) (toLowerCase (framework model)).

Definition matchesStatus (statusFilter : StatusFilter) (model : Model) : bool :=
  String.eqb (filter_value statusFilter) "all"
  || String.eqb (status_name (status model)) (filter_value statusFilter).

(** [filteredModels] *)
Definition filteredModels (searchTerm : string) (statusFilter : StatusFilter)
    (models : list Model) : list Model :=
  List.filter (fun model => matchesSearch searchTerm model
                            && matchesStatus statusFilter model) models.

(** ** Inputs of the page scenarios *)

(** A storage that holds settings, a host that reads every text as the
    settings [sample_settings], and one that reads the text [settings] so
    and every other text as the cache entry [fresh_entry]. *)
Definition settings_storage : Storage := <[SETTINGS_KEY := "settings"]> ∅.

Definition read_settings (text : string) : option JsValue :=
  Some (settings_to_js sample_settings).

Definition read_settings_or_entry (text : string) : option JsValue :=
  if String.eqb text "settings" then Some (settings_to_js sample_settings)
  else Some (JObj fresh_entry).

Definition cached_storage : Storage :=
  <[CACHE_KEY := "entry"]> settings_storage.

(** The inputs of the settings form with blanks around the owner and the
    other inputs left empty. *)
Definition sample_form : SettingsForm := mkForm " o " "r" "" "" "".

(** * Theorems *)

(** ** The YAML-like decoder *)

(** C4. The six-line scenario decodes to exactly two records; the first one
    carries the nested mapping [metrics] whose [accuracy] is the number 0.9;
    the second one carries the status [bogus], which is not one of the four
    statuses, and its normalisation has the status [development]. *)
Theorem decoder_scenario :
  parseYaml scenario_text = JArr [scenario_record1; scenario_record2]
  /\ (m ← Js.get scenario_record1 "metrics"; Js.get m "accuracy") = Ok (JNum number_0_9)
  /\ Num.parseFloat "0.9" = number_0_9
  /\ Js.get scenario_record2 "status" = Ok (JStr "bogus")
  /\ (forall s, status_name s <> "bogus")
  /\ forall Number_toString now index,
       exists m, normalizeModel Number_toString now scenario_record2 index = Ok m
                 /\ status m = development.
Proof.
  split; [vm_compute; reflexivity|].
  split; [vm_compute; reflexivity|].
  split; [vm_compute; reflexivity|].
  split; [vm_compute; reflexivity|].
  split; [intros []; discriminate|].
  intros ntos now index. eexists. split; [vm_compute; reflexivity|reflexivity].
Qed.

(** A line that is trimmed to the dash marker leaves the state of the
    decoder as it was. *)
Lemma bare_dash_line_ignored st line :
  Str.trim line = "-" -> parseYaml_line st line = st.
Proof.
  intros Ht. unfold parseYaml_line. rewrite Ht. simpl.
  destruct (currentObject st); reflexivity.
Qed.

(** C5 (the code departs from the claim). A line that holds the dash marker
    and nothing else is trimmed to the single character [-], which does not
    start with the dash-and-space token: the line starts no record
    ([bare_dash_line_ignored]). Two such lines in a row give no record at
    all; fields that follow a bare dash are dropped when no record is open
    and go to the record in progress otherwise. *)
Theorem bare_dash_lines_start_no_record :
  parseYaml bare_dashes_text = JArr []
  /\ parseYaml bare_dash_records_text = JArr []
  /\ parseYaml dash_after_record_text
     = JArr [JObj (<["id" := JStr "m1"]> (<["name" := JStr "x"]> ∅))].
Proof. repeat split; vm_compute; reflexivity. Qed.

Lemma split_not_nil c s : Str.split c s <> [].
Proof.
  destruct s as [|d r]; simpl; [done|].
  destruct (Ascii.eqb d c); [done|]. by destruct (Str.split c r).
Qed.

Lemma join_split c s : Str.join (String c EmptyString) (Str.split c s) = s.
Proof.
  unfold Str.join. induction s as [|d r IH]; [done|]. simpl.
  destruct (Ascii.eqb_spec d c) as [->|Hne].
  - pose proof (split_not_nil c r) as Hnil.
    destruct (Str.split c r) as [|h t]; [done|]. simpl in *. by rewrite IH.
  - destruct (Str.split c r) as [|h [|h' t]]; simpl in *; by rewrite <- IH.
Qed.

Lemma split_no_separator c s : Str.indexOf c s = None -> Str.split c s = [s].
Proof.
  induction s as [|d r IH]; [done|]. simpl.
  destruct (Ascii.eqb d c); [done|].
  destruct (Str.indexOf c r); [done|]. intros _. by rewrite IH.
Qed.

Lemma split_at_separator c s i :
  Str.indexOf c s = Some i ->
  Str.split c s = Str.slice 0 i s :: Str.split c (Str.slice_from (i + 1) s).
Proof.
  revert i. induction s as [|d r IH]; intros i; [done|]. simpl.
  destruct (Ascii.eqb d c).
  - intros [= <-]. reflexivity.
  - destruct (Str.indexOf c r) as [j|]; [|done]. intros [= <-].
    rewrite (IH j eq_refl). unfold Str.slice. simpl.
    by rewrite !Nat.sub_0_r.
Qed.

Lemma slice_nonempty c s i :
  Str.indexOf c s = Some (S i) -> Str.nonempty (Str.slice 0 (S i) s) = true.
Proof. destruct s as [|d r]; [done|]. reflexivity. Qed.

Lemma dash_line_not_skipped t :
  Str.startsWith "- " t = true ->
  negb (Str.nonempty t) || Str.startsWith "#" t = false.
Proof.
  destruct t as [|c r]; [done|]. unfold Str.startsWith. cbn [String.prefix].
  destruct (ascii_dec "-" c) as [<-|]; [|done]. intros _. reflexivity.
Qed.

(** X5. A line whose trimmed text starts with the dash-and-space token
    closes the record in progress and starts a new one. The new record has
    one field, named by the text before the first colon of the remainder
    and holding the coerced text after it, when the remainder has a colon
    that is not its first character; it has no field otherwise. *)
Theorem dash_line_starts_record st line :
  Str.startsWith "- " (Str.trim line) = true ->
  let afterDash := Str.trim (Str.slice_from 2 (Str.trim line)) in
  parseYaml_line st line
  = mkYamlState
      match currentObject st with
      | Some o =>
          result st
          ++ [obj_value (attach_nested o (currentNested st) (currentNestedKey st))]
      | None => result st
      end
      (Some match Str.indexOf ":" afterDash with
            | Some (S i) =>
                obj_assign emptyObj (Str.trim (Str.slice 0 (S i) afterDash))
                  (parseYamlValue (Str.trim (Str.slice_from (S i + 1) afterDash)))
            | _ => emptyObj
            end)
      None None.
Proof.
  intros Hdash afterDash. unfold parseYaml_line.
  rewrite (dash_line_not_skipped _ Hdash), Hdash. fold afterDash.
  f_equal. f_equal.
  destruct (Str.indexOf ":" afterDash) as [[|i]|] eqn:Hi.
  - rewrite (split_at_separator _ _ _ Hi).
    destruct (Str.nonempty afterDash); [|done].
    assert (Str.slice 0 0 afterDash = "") as -> by (by destruct afterDash).
    reflexivity.
  - assert (Str.nonempty afterDash = true) as -> by (by destruct afterDash).
    rewrite (split_at_separator _ _ _ Hi), (slice_nonempty _ _ _ Hi).
    pose proof (split_not_nil ":" (Str.slice_from (S i + 1) afterDash)) as Hnil.
    pose proof (join_split ":" (Str.slice_from (S i + 1) afterDash)) as Hjoin.
    destruct (Str.split ":" (Str.slice_from (S i + 1) afterDash)) as [|h t]; [done|].
    simpl length. cbn [Nat.ltb Nat.leb andb].
    by rewrite Hjoin.
  - rewrite (split_no_separator _ _ Hi).
    destruct (Str.nonempty afterDash); [|done].
    simpl length. by rewrite andb_false_r.
Qed.

(** X5 at the first line of the scenario. *)
Lemma dash_line_starts_record_witness :
  parseYaml_line (mkYamlState [] None None None) "- id: m1"
  = mkYamlState [] (Some (mkPlainObj false (<["id" := JStr "m1"]> ∅))) None None.
Proof.
  exact (dash_line_starts_record (mkYamlState [] None None None) "- id: m1" eq_refl).
Defined.

(** The text after the dash of a record line. *)

Lemma append_cons a s t : String a s +:+ t = String a (s +:+ t).
Proof. reflexivity. Qed.

Lemma append_nil s : "" +:+ s = s.
Proof. reflexivity. Qed.

Lemma rev_app_append u v acc :
  String.rev_app (u +:+ v) acc = String.rev_app v (String.rev_app u acc).
Proof.
  revert acc. induction u as [|a u IH]; intros acc; [done|].
  rewrite append_cons. simpl. apply IH.
Qed.

Lemma rev_snoc u c : String.rev (u +:+ String c "") = String c (String.rev u).
Proof. unfold String.rev. by rewrite rev_app_append. Qed.

Lemma rev_app_snoc s acc :
  acc <> "" -> exists u c, String.rev_app s acc = u +:+ String c ""
                           /\ exists u', acc = u' +:+ String c "".
Proof.
  revert acc. induction s as [|a s IH]; intros acc Hacc; simpl.
  - assert (Hlast : forall t : string, t <> "" -> exists u c, t = u +:+ String c "").
    { induction t as [|b t IHt]; [done|]. intros _.
      destruct t as [|b' t].
      - by exists "", b.
      - destruct IHt as (u & c & Hu); [done|].
        exists (String b u), c. by rewrite append_cons, <- Hu. }
    destruct (Hlast acc Hacc) as (u & c & ->). exists u, c. eauto.
  - destruct (IH (String a acc)) as (u & c & Hu & u' & Hu'); [done|].
    exists u, c. split; [done|].
    destruct u' as [|b u'].
    + rewrite append_nil in Hu'. injection Hu' as -> ->. done.
    + rewrite append_cons in Hu'. injection Hu' as -> ->. by exists u'.
Qed.

Lemma trimStart_head s c t :
  Str.trimStart s = String c t -> Str.is_whitespace c = false.
Proof.
  induction s as [|a s IH]; [done|]. simpl.
  destruct (Str.is_whitespace a) eqn:Ha; [done|]. by intros [= <- _].
Qed.

(** A trimmed text is empty or ends with a character that is not white
    space. *)
Lemma trim_last s :
  Str.trim s = "" \/ exists u c, Str.trim s = u +:+ String c ""
                                 /\ Str.is_whitespace c = false.
Proof.
  unfold Str.trim, Str.trimEnd.
  destruct (Str.trimStart (String.rev (Str.trimStart s))) as [|c t] eqn:Hw;
    [by left|].
  right. apply trimStart_head in Hw as Hc. unfold String.rev. simpl.
  destruct (rev_app_snoc t (String c "")) as (u & c' & -> & u' & Hu'); [done|].
  exists u, c'. split; [done|].
  destruct u' as [|b u'].
  - rewrite append_nil in Hu'. by injection Hu' as <-.
  - rewrite append_cons in Hu'. injection Hu' as _ Hu'. by destruct u'.
Qed.

Lemma trimStart_keeps_last u c :
  Str.is_whitespace c = false ->
  exists u', Str.trimStart (u +:+ String c "") = u' +:+ String c "".
Proof.
  intros Hc. induction u as [|a u IH].
  - exists "". rewrite append_nil. simpl. by rewrite Hc.
  - rewrite append_cons. simpl. destruct (Str.is_whitespace a); [done|].
    exists (String a u). by rewrite append_cons.
Qed.

Lemma trim_nonempty u c :
  Str.is_whitespace c = false -> Str.nonempty (Str.trim (u +:+ String c "")) = true.
Proof.
  intros Hc. unfold Str.trim, Str.trimEnd.
  destruct (trimStart_keeps_last u c Hc) as [u' ->].
  rewrite rev_snoc. simpl. rewrite Hc. unfold String.rev. simpl.
  destruct (rev_app_snoc (String.rev_app u' "") (String c "")) as (v & c' & -> & _);
    [done|].
  by destruct v.
Qed.

(** X8. On every line that the decoder takes for a record line, the text
    after the dash marker is not empty once trimmed: the branch of
    [parseYaml] written for a dash with nothing after it is never taken. *)
Theorem dash_remainder_never_empty line :
  Str.startsWith "- " (Str.trim line) = true ->
  Str.nonempty (Str.trim (Str.slice_from 2 (Str.trim line))) = true.
Proof.
  intros Hdash.
  destruct (trim_last line) as [Ht|(u & c & Ht & Hc)].
  - by rewrite Ht in Hdash.
  - rewrite Ht in Hdash |- *. clear Ht.
    destruct u as [|a [|b u]].
    + by destruct c as [[] [] [] [] [] [] [] []].
    + rewrite append_cons, append_nil in Hdash. unfold Str.startsWith in Hdash.
      cbn [String.prefix] in Hdash.
      destruct (ascii_dec "-" a); [|done].
      destruct (ascii_dec " " c) as [<-|]; [done|done].
    + rewrite !append_cons. simpl. by apply trim_nonempty.
Qed.

(** X8 at a line with trailing blanks. *)
Lemma dash_remainder_never_empty_witness :
  Str.nonempty (Str.trim (Str.slice_from 2 (Str.trim "  - x  "))) = true.
Proof. exact (dash_remainder_never_empty "  - x  " eq_refl). Defined.

(** ** The record normaliser *)

Section NormalizerFacts.

Variable Number_toString : float -> string.

Local Abbreviation normalize := (normalizeModel Number_toString).

Lemma bind_Ok {A B : Type} (r : Result A) (k : A -> Result B) (b : B) :
  (r ≫= k) = Ok b -> exists a, r = Ok a /\ k a = Ok b.
Proof. destruct r as [a|e]; simpl; [eauto | discriminate]. Qed.

(** One step of a computation that returned: the first action returned [a]
    (recorded as [Ha]) and the rest, still [H], returned the result. *)
Ltac bind_inv H a Ha :=
  let H' := fresh in
  apply bind_Ok in H as (a & Ha & H'); rename H' into H.

Lemma string_field_Ok obj k dflt out :
  string_field Number_toString obj k dflt = Ok out ->
  coerced Number_toString obj k dflt out.
Proof.
  unfold string_field, coerced. intros H.
  bind_inv H v Hv. exists v. split; [done|].
  unfold Js.or in H. destruct (Js.truthy v); [done|].
  simpl in H. by injection H.
Qed.

(** The reads and conversions behind a model that [normalizeModel] returned. *)
Lemma normalizeModel_Ok now item index m :
  normalize now item index = Ok m ->
  exists mv fv,
    Js.get item "metrics" = Ok mv /\ Js.get item "files" = Ok fv
    /\ string_field Number_toString item "id" ("model-" +:+ Str.of_nat index) = Ok (id m)
    /\ string_field Number_toString item "name" "Unnamed Model" = Ok (name m)
    /\ string_field Number_toString item "version" "1.0.0" = Ok (version m)
    /\ string_field Number_toString item "description" "" = Ok (description m)
    /\ string_field Number_toString item "framework" "Unknown" = Ok (framework m)
    /\ string_field Number_toString item "owner" "Unknown" = Ok (owner m)
    /\ metrics m
       = (if Js.truthy mv then
            Some (mkMetrics
                    (number_or_undefined (Js.field mv "accuracy"))
                    (number_or_undefined (Js.field mv "latency")))
          else None)
    /\ files m
       = (if Js.truthy fv then
            Some (mkFiles
                    (string_or_undefined (Js.field fv "modelCard"))
                    (string_or_undefined (Js.field fv "trainingScript"))
                    (string_or_undefined (Js.field fv "featureScript"))
                    (string_or_undefined (Js.field fv "inferenceScript"))
                    (string_or_undefined (Js.field fv "modelFile")))
          else None).
Proof.
  unfold normalizeModel. intros H.
  bind_inv H fv Hfv. bind_inv H v1 H1. bind_inv H v2 H2. bind_inv H v3 H3.
  bind_inv H v4 H4. bind_inv H v5 H5. bind_inv H vs Hs. bind_inv H v6 H6.
  bind_inv H v7 H7. bind_inv H v8 H8. bind_inv H mv Hmv. bind_inv H gm Hgm.
  bind_inv H gf Hgf.
  injection H as <-. simpl.
  exists mv, fv. repeat (split; [done|]).
  split.
  - unfold metrics_group in Hgm.
    destruct (Js.truthy mv) eqn:Ht; [|by injection Hgm].
    destruct mv; simpl in *; try discriminate; by injection Hgm.
  - unfold files_group in Hgf.
    destruct (Js.truthy fv) eqn:Ht; [|by injection Hgf].
    destruct fv; simpl in *; try discriminate; by injection Hgf.
Qed.

Lemma number_or_undefined_Some v x : number_or_undefined v = Some x <-> v = JNum x.
Proof. destruct v; simpl; split; intros [=]; subst; done. Qed.

Lemma string_or_undefined_Some v s : string_or_undefined v = Some s <-> v = JStr s.
Proof. destruct v; simpl; split; intros [=]; subst; done. Qed.

Lemma get_field v k : Js.truthy v = true -> Js.get v k = Ok (Js.field v k).
Proof. destruct v; simpl; try discriminate; done. Qed.

Lemma get_field_eq v k w :
  Js.truthy v = true -> Js.field v k = w <-> Js.get v k = Ok w.
Proof.
  intros Ht. rewrite (get_field v k Ht). split; [intros ->; done | by intros [=]].
Qed.

(** C6 (amended). In a model that [normalizeModel] returns, the metrics
    group is present exactly when the source value of [metrics] is truthy
    (a key holding [null], [false], [0], [NaN] or the empty string counts as
    not supplied); in a present group [accuracy] (and [latency]) is set to
    exactly the source value when that value is a number, and is unset
    otherwise. The files group follows the same rule, each of its five
    fields being set exactly when the source value is a string. *)
Theorem optional_groups_follow_truthiness now item index m mv fv :
  normalize now item index = Ok m ->
  Js.get item "metrics" = Ok mv ->
  Js.get item "files" = Ok fv ->
  (is_Some (metrics m) <-> Js.truthy mv = true)
  /\ (forall g, metrics m = Some g ->
        (forall x, accuracy g = Some x <-> Js.get mv "accuracy" = Ok (JNum x))
        /\ (forall x, latency g = Some x <-> Js.get mv "latency" = Ok (JNum x)))
  /\ (is_Some (files m) <-> Js.truthy fv = true)
  /\ (forall g, files m = Some g ->
        (forall s, modelCard g = Some s <-> Js.get fv "modelCard" = Ok (JStr s))
        /\ (forall s, trainingScript g = Some s
                      <-> Js.get fv "trainingScript" = Ok (JStr s))
        /\ (forall s, featureScript g = Some s
                      <-> Js.get fv "featureScript" = Ok (JStr s))
        /\ (forall s, inferenceScript g = Some s
                      <-> Js.get fv "inferenceScript" = Ok (JStr s))
        /\ (forall s, modelFile g = Some s <-> Js.get fv "modelFile" = Ok (JStr s))).
Proof.
  intros H Hmv Hfv.
  apply normalizeModel_Ok in H as (mv' & fv' & Hmv' & Hfv' & _ & _ & _ & _ & _ & _ & Hm & Hf).
  rewrite Hmv in Hmv'. rewrite Hfv in Hfv'.
  injection Hmv' as <-. injection Hfv' as <-.
  rewrite Hm, Hf. clear Hm Hf.
  split; [|split; [|split]].
  - destruct (Js.truthy mv); split; intros Hx;
      first [done | by eexists | by destruct Hx].
  - intros g Hg. destruct (Js.truthy mv) eqn:Ht; [|discriminate].
    injection Hg as <-. simpl.
    split; intros x; rewrite number_or_undefined_Some; by apply get_field_eq.
  - destruct (Js.truthy fv); split; intros Hx;
      first [done | by eexists | by destruct Hx].
  - intros g Hg. destruct (Js.truthy fv) eqn:Ht; [|discriminate].
    injection Hg as <-. simpl.
    split; [|split; [|split; [|split]]]; intros s';
      rewrite string_or_undefined_Some; by apply get_field_eq.
Qed.

(** C7 (amended). In a model that [normalizeModel] returns, each of [id],
    [name], [version], [description], [framework] and [owner] is the string
    conversion of the source value when that value is truthy, and the
    default of the field when the value is absent or falsy ([null],
    [false], [0], [NaN], the empty string). *)
Theorem string_fields_coerced now item index m :
  normalize now item index = Ok m ->
  coerced Number_toString item "id" ("model-" +:+ Str.of_nat index) (id m)
  /\ coerced Number_toString item "name" "Unnamed Model" (name m)
  /\ coerced Number_toString item "version" "1.0.0" (version m)
  /\ coerced Number_toString item "description" "" (description m)
  /\ coerced Number_toString item "framework" "Unknown" (framework m)
  /\ coerced Number_toString item "owner" "Unknown" (owner m).
Proof.
  intros H.
  apply normalizeModel_Ok in H as (mv & fv & _ & _ & H1 & H2 & H3 & H4 & H5 & H6 & _).
  repeat split; by apply string_field_Ok.
Qed.

End NormalizerFacts.

(** C6 at the first record of the scenario. *)
Lemma optional_groups_follow_truthiness_witness :
  is_Some (metrics scenario_model1)
  <-> Js.truthy (JObj (<["accuracy" := JNum number_0_9]> ∅)) = true.
Proof.
  apply (optional_groups_follow_truthiness (fun _ => "") "2024-01-01T00:00:00.000Z"
           scenario_record1 0 scenario_model1
           (JObj (<["accuracy" := JNum number_0_9]> ∅)) JUndefined);
    vm_compute; reflexivity.
Defined.

(** C6, the claim as stated fails: the record [{"metrics": null}] supplies
    the key [metrics], and so does the record decoded from the YAML lines
    [- id: m1] and [metrics: 0]; the model normalised from either has no
    metrics group. The same holds of [files]. *)
Lemma falsy_group_key_gives_no_group :
  (null_groups_props !! "metrics" = Some JNull
   /\ null_groups_props !! "files" = Some JNull
   /\ forall Number_toString now index,
        exists m, normalizeModel Number_toString now (JObj null_groups_props) index = Ok m
                  /\ metrics m = None /\ files m = None)
  /\ (parseYaml zero_metrics_text
      = JArr [JObj (<["id" := JStr "m1"]> (<["metrics" := JNum 0]> ∅))]
      /\ forall Number_toString now index,
           exists m, normalizeModel Number_toString now
                       (JObj (<["id" := JStr "m1"]> (<["metrics" := JNum 0]> ∅))) index
                     = Ok m
                     /\ metrics m = None).
Proof.
  split; [split; [reflexivity | split; [reflexivity|]] | split; [vm_compute; reflexivity|]].
  - intros ntos now index. eexists. split; [vm_compute; reflexivity|]. split; reflexivity.
  - intros ntos now index. eexists. split; [vm_compute; reflexivity|]. reflexivity.
Qed.

(** C7 at the first record of the scenario: the name is supplied, the
    version is not. *)
Lemma string_fields_coerced_witness :
  coerced (fun _ => "") scenario_record1 "name" "Unnamed Model" "Foo"
  /\ coerced (fun _ => "") scenario_record1 "version" "1.0.0" "1.0.0".
Proof.
  destruct (string_fields_coerced (fun _ => "") "2024-01-01T00:00:00.000Z"
              scenario_record1 0 scenario_model1) as (_ & Hn & Hv & _).
  - vm_compute; reflexivity.
  - split; [exact Hn | exact Hv].
Defined.

(** C7, the claim as stated fails: the record decoded from the YAML line
    [- name: false] supplies the value [false] for [name], whose string
    conversion is ["false"]; the normalised model has the default name. A
    supplied [version: 0] likewise gives the default version. *)
Lemma falsy_name_gets_default :
  parseYaml "- name: false" = JArr [JObj (<["name" := JBool false]> ∅)]
  /\ (forall Number_toString, Js.ToString Number_toString (JBool false) = Ok "false")
  /\ (forall Number_toString now index,
        exists m, normalizeModel Number_toString now
                    (JObj (<["name" := JBool false]> ∅)) index = Ok m
                  /\ name m = "Unnamed Model" /\ name m <> "false")
  /\ parseYaml "- version: 0" = JArr [JObj (<["version" := JNum 0]> ∅)]
  /\ (forall Number_toString now index,
        exists m, normalizeModel Number_toString now
                    (JObj (<["version" := JNum 0]> ∅)) index = Ok m
                  /\ version m = "1.0.0").
Proof.
  split; [vm_compute; reflexivity|].
  split; [reflexivity|].
  split.
  - intros ntos now index. eexists. split; [vm_compute; reflexivity|].
    split; [reflexivity | discriminate].
  - split; [vm_compute; reflexivity|].
    intros ntos now index. eexists. split; [vm_compute; reflexivity|]. reflexivity.
Qed.

(** C3 (the code departs from the claim). The element [null] of a record
    list makes [normalizeModel] raise a [TypeError] at its first property
    read, whatever the position, and so does a record whose [id] is an
    object with an own [toString] property. *)
Theorem normalizeModel_raises_on_null Number_toString now index :
  normalizeModel Number_toString now JNull index = Throw TypeError
  /\ normalizeModel Number_toString now shadowed_toString_record index
     = Throw TypeError
  /\ normalize_from Number_toString (fun _ => now) index [JObj ∅; JNull]
     = Throw TypeError.
Proof. repeat split; vm_compute; reflexivity. Qed.

(** X6. [validateStatus] returns a status exactly when its argument is the
    string that names it, and [development] also for every value that
    names no status. *)
Theorem validateStatus_closed v s :
  validateStatus v = s
  <-> v = JStr (status_name s)
      \/ (s = development /\ forall s', v <> JStr (status_name s')).
Proof.
  split.
  - intros <-. destruct v as [| | | |t| |];
      try (right; split; [reflexivity | intros s'; discriminate]).
    simpl.
    destruct (String.eqb_spec t "development") as [->|H1]; [by left|].
    destruct (String.eqb_spec t "staging") as [->|H2]; [by left|].
    destruct (String.eqb_spec t "production") as [->|H3]; [by left|].
    destruct (String.eqb_spec t "archived") as [->|H4]; [by left|].
    right. split; [done|]. intros [] [=]; congruence.
  - intros [->|[-> Hv]]; [by destruct s|].
    destruct v as [| | | |t| |]; try reflexivity. simpl.
    destruct (String.eqb_spec t "development") as [->|H1]; [done|].
    destruct (String.eqb_spec t "staging") as [->|H2]; [by destruct (Hv staging)|].
    destruct (String.eqb_spec t "production") as [->|H3]; [by destruct (Hv production)|].
    destruct (String.eqb_spec t "archived") as [->|H4]; [by destruct (Hv archived)|].
    reflexivity.
Qed.

(** ** The config decoder *)

Section DecoderFacts.

Variable Number_toString : float -> string.
Variable JSON_parse : string -> option JsValue.
Variable clock : nat -> string.

Local Abbreviation parseConfig := (parseConfigFile Number_toString JSON_parse clock).

Lemma decodeConfig_json content path data :
  isYamlPath path = false -> JSON_parse content = Some data ->
  decodeConfig JSON_parse content path = Ok data.
Proof.
  intros Hp Hd. unfold decodeConfig, JSON_parse_or_throw. rewrite Hp, Hd. done.
Qed.

(** C8 (the code departs from the claim). A strict-format document that
    decodes to [null] is neither an array nor an object with a [models]
    field, and the read of [models] on it raises a [TypeError] before the
    array check: the call does not fail with [MalformedConfig]. *)
Theorem null_document_raises_type_error content path :
  isYamlPath path = false ->
  JSON_parse content = Some JNull ->
  parseConfig content path = Throw TypeError
  /\ parseConfig content path <> Throw MalformedConfig.
Proof.
  intros Hp Hd. unfold parseConfigFile.
  rewrite (decodeConfig_json content path JNull Hp Hd). simpl. split; done.
Qed.

End DecoderFacts.

(** C8 at the document [null]. *)
Lemma null_document_raises_type_error_witness :
  parseConfigFile (fun _ => "") (fun _ => Some JNull) (fun _ => "") "null" "models.json"
  = Throw TypeError
  /\ parseConfigFile (fun _ => "") (fun _ => Some JNull) (fun _ => "") "null" "models.json"
     <> Throw MalformedConfig.
Proof.
  apply (null_document_raises_type_error (fun _ => "") (fun _ => Some JNull)
           (fun _ => "") "null" "models.json"); reflexivity.
Defined.

Lemma parseYamlValue_scalar value : is_scalar (parseYamlValue value) = true.
Proof.
  unfold parseYamlValue.
  repeat match goal with |- context [if ?c then _ else _] => destruct c end;
    reflexivity.
Qed.

Lemma yaml_props_empty : yaml_props (own emptyObj).
Proof. intros k v Hk. change (own emptyObj) with (∅ : gmap string JsValue) in Hk.
  by rewrite lookup_empty in Hk. Qed.

Lemma yaml_props_assign_scalar o k v :
  yaml_props (own o) -> is_scalar v = true -> yaml_props (own (obj_assign o k v)).
Proof.
  intros Ho Hv. unfold obj_assign.
  destruct (String.eqb k "__proto__" && negb (nullProto o)).
  - destruct v; exact Ho.
  - simpl. intros k' v' Hk'. destruct (decide (k = k')) as [->|Hne].
    + rewrite lookup_insert_eq in Hk'. injection Hk' as <-. done.
    + rewrite lookup_insert_ne in Hk' by done. by apply (Ho k' v').
Qed.

Lemma yaml_props_assign_group o k v :
  yaml_props (own o) -> k = "metrics" \/ k = "files" ->
  yaml_props (own (obj_assign o k v)).
Proof.
  intros Ho Hk. unfold obj_assign.
  assert (String.eqb k "__proto__" = false) as -> by (destruct Hk as [->| ->]; reflexivity).
  simpl. intros k' v' Hk' Hm Hf. destruct (decide (k = k')) as [<-|Hne].
  - destruct Hk; contradiction.
  - rewrite lookup_insert_ne in Hk' by done. by apply (Ho k' v').
Qed.

Lemma yaml_props_attach o nested key :
  yaml_props (own o) ->
  (forall k, key = Some k -> k = "metrics" \/ k = "files") ->
  yaml_props (own (attach_nested o nested key)).
Proof.
  intros Ho Hk. unfold attach_nested.
  destruct nested as [n|], key as [k|]; try done.
  destruct (Str.nonempty k && has_keys n); [|done].
  apply yaml_props_assign_group; [done | by apply Hk].
Qed.

Lemma yaml_result_push st :
  yaml_state_ok st ->
  Forall yaml_record
    match currentObject st with
    | Some o =>
        result st ++ [obj_value (attach_nested o (currentNested st) (currentNestedKey st))]
    | None => result st
    end.
Proof.
  intros (Hr & Ho & Hk). destruct (currentObject st) as [o|]; [|done].
  apply Forall_app. split; [done|]. constructor; [|constructor].
  eexists. split; [reflexivity|]. apply yaml_props_attach; [by apply Ho | done].
Qed.

Lemma parseYaml_line_ok st line :
  yaml_state_ok st -> yaml_state_ok (parseYaml_line st line).
Proof.
  intros Hst. pose proof Hst as (Hr & Ho & Hk). unfold parseYaml_line.
  destruct (negb (Str.nonempty (Str.trim line)) || Str.startsWith "#" (Str.trim line));
    [done|].
  destruct (Str.startsWith "- " (Str.trim line)).
  - split; [by apply yaml_result_push|]. split; [|done].
    simpl. intros o [= <-].
    destruct (Str.nonempty _); [|apply yaml_props_empty].
    destruct (Str.split _ _) as [|key valueParts]; [apply yaml_props_empty|].
    destruct (Str.nonempty key && _); [|apply yaml_props_empty].
    apply yaml_props_assign_scalar; [apply yaml_props_empty | apply parseYamlValue_scalar].
  - destruct (currentObject st) as [o|] eqn:Eo; [|done].
    destruct (Str.indexOf ":" (Str.trim line)) as [colonIndex|]; [|done].
    specialize (Ho o eq_refl).
    set (key := Str.trim (Str.slice 0 colonIndex (Str.trim line))).
    set (value := Str.trim (Str.slice_from (colonIndex + 1) (Str.trim line))).
    destruct ((String.eqb key "metrics" || String.eqb key "files")
              && negb (Str.nonempty value)) eqn:Hdecl.
    + split; [done|]. split.
      * simpl. intros o' [= <-]. by apply yaml_props_attach.
      * simpl. intros k [= <-].
        apply andb_prop in Hdecl as [Hkey _]. apply orb_prop in Hkey.
        destruct Hkey as [Hkey|Hkey]; apply String.eqb_eq in Hkey; auto.
    + assert (Htop : yaml_state_ok
                (if nested_pending (currentNested st) (currentNestedKey st)
                 then mkYamlState (result st)
                        (Some (obj_assign
                           (attach_nested o (currentNested st) (currentNestedKey st))
                           key (parseYamlValue value))) None None
                 else mkYamlState (result st)
                        (Some (obj_assign o key (parseYamlValue value)))
                        (currentNested st) (currentNestedKey st))).
      { destruct (nested_pending _ _).
        - split; [done|]. split; [|done]. simpl. intros o' [= <-].
          apply yaml_props_assign_scalar; [|apply parseYamlValue_scalar].
          by apply yaml_props_attach.
        - split; [done|]. split; [|done]. simpl. intros o' [= <-].
          apply yaml_props_assign_scalar; [done | apply parseYamlValue_scalar]. }
      destruct (currentNested st) as [n|] eqn:En; [|exact Htop].
      destruct (currentNestedKey st) as [k|] eqn:Ek; [|exact Htop].
      destruct (Str.nonempty k && _); [|exact Htop].
      split; [done|]. split.
      * simpl. by intros o' [= <-].
      * simpl. intros k' [= <-]. by apply Hk.
Qed.

Lemma parseYaml_lines_ok lines st :
  yaml_state_ok st -> yaml_state_ok (fold_left parseYaml_line lines st).
Proof.
  revert st. induction lines as [|line lines IH]; intros st Hst; [done|].
  simpl. apply IH. by apply parseYaml_line_ok.
Qed.

Lemma parseYaml_records_ok content : Forall yaml_record (parseYaml_records content).
Proof.
  unfold parseYaml_records. apply yaml_result_push, parseYaml_lines_ok.
  split; [constructor|]. split; done.
Qed.

Section YamlTotal.

Variable Number_toString : float -> string.
Variable JSON_parse : string -> option JsValue.
Variable clock : nat -> string.

Lemma ToString_scalar v :
  is_scalar v = true -> exists s, Js.ToString Number_toString v = Ok s.
Proof. destruct v as [| |[]| | | |]; simpl; try discriminate; eauto. Qed.

Lemma or_scalar v w :
  is_scalar v = true -> is_scalar w = true -> is_scalar (Js.or v w) = true.
Proof. unfold Js.or. by destruct (Js.truthy v). Qed.

Lemma yaml_props_field props k :
  yaml_props props -> k <> "metrics" -> k <> "files" ->
  is_scalar (default JUndefined (props !! k)) = true.
Proof.
  intros Hp Hm Hf. destruct (props !! k) as [v|] eqn:Hk; [|done].
  simpl. by apply (Hp k v).
Qed.

Lemma string_field_yaml props k dflt :
  yaml_props props -> k <> "metrics" -> k <> "files" ->
  exists s, string_field Number_toString (JObj props) k dflt = Ok s.
Proof.
  intros Hp Hm Hf. unfold string_field. simpl.
  apply ToString_scalar, or_scalar; [by apply yaml_props_field | done].
Qed.

Lemma time_field_yaml props k1 k2 now :
  yaml_props props -> k1 <> "metrics" -> k1 <> "files" ->
  k2 <> "metrics" -> k2 <> "files" ->
  exists s, time_field Number_toString (JObj props) k1 k2 now = Ok s.
Proof.
  intros Hp H1 H2 H3 H4. unfold time_field. simpl.
  apply ToString_scalar, or_scalar; [|done].
  apply or_scalar; by apply yaml_props_field.
Qed.

Lemma metrics_group_returns v : exists g, metrics_group v = Ok g.
Proof.
  unfold metrics_group. destruct (Js.truthy v) eqn:Ht; [|eauto].
  rewrite !(get_field v _ Ht). simpl. eauto.
Qed.

Lemma files_group_returns v : exists g, files_group v = Ok g.
Proof.
  unfold files_group. destruct (Js.truthy v) eqn:Ht; [|eauto].
  rewrite !(get_field v _ Ht). simpl. eauto.
Qed.

Lemma normalizeModel_yaml now item index :
  yaml_record item -> exists m, normalizeModel Number_toString now item index = Ok m.
Proof.
  intros (props & -> & Hp). unfold normalizeModel.
  destruct (string_field_yaml props "id" ("model-" +:+ Str.of_nat index) Hp)
    as [s1 ->]; [done..|].
  destruct (string_field_yaml props "name" "Unnamed Model" Hp) as [s2 ->]; [done..|].
  destruct (string_field_yaml props "version" "1.0.0" Hp) as [s3 ->]; [done..|].
  destruct (string_field_yaml props "description" "" Hp) as [s4 ->]; [done..|].
  destruct (string_field_yaml props "framework" "Unknown" Hp) as [s5 ->]; [done..|].
  destruct (string_field_yaml props "owner" "Unknown" Hp) as [s6 ->]; [done..|].
  destruct (time_field_yaml props "createdAt" "created_at" now Hp) as [s7 ->]; [done..|].
  destruct (time_field_yaml props "updatedAt" "updated_at" now Hp) as [s8 ->]; [done..|].
  cbn [mbind Result_bind Js.get].
  destruct (metrics_group_returns (default JUndefined (props !! "metrics"))) as [g1 ->].
  destruct (files_group_returns (default JUndefined (props !! "files"))) as [g2 ->].
  cbn [mbind Result_bind]. eauto.
Qed.

Lemma normalize_from_yaml index items :
  Forall yaml_record items ->
  exists ms, normalize_from Number_toString clock index items = Ok ms
             /\ length ms = length items.
Proof.
  intros Hi. revert index. induction Hi as [|item items Hitem _ IH]; intros index.
  - by exists [].
  - simpl. destruct (normalizeModel_yaml (clock index) item index Hitem) as [m ->].
    destruct (IH (S index)) as (ms & -> & Hlen).
    exists (m :: ms). simpl. by rewrite Hlen.
Qed.

(** X3. Under a path that ends in [.yaml] or [.yml], [parseConfigFile]
    returns for every text whatsoever, with one model for each record the
    decoder collects: the decoder yields an array of objects whose
    properties other than [metrics] and [files] are scalars, and
    [normalizeModel] returns on each of them. *)
Theorem yaml_config_always_decodes content path :
  isYamlPath path = true ->
  exists ms,
    parseConfigFile Number_toString JSON_parse clock content path = Ok ms
    /\ length ms = length (parseYaml_records content).
Proof.
  intros Hp. unfold parseConfigFile, decodeConfig. rewrite Hp.
  cbn [mbind Result_bind parseYaml extractModels Js.isArray].
  apply normalize_from_yaml, parseYaml_records_ok.
Qed.

(** X4. When the decoded content is neither [null] nor [undefined],
    [parseConfigFile] goes on with the content itself if it is an array,
    with its [models] property if that is an array, and fails with
    [MalformedConfig] in every other case. *)
Theorem config_shape_checked content path data :
  decodeConfig JSON_parse content path = Ok data ->
  data <> JNull -> data <> JUndefined ->
  parseConfigFile Number_toString JSON_parse clock content path
  = match data with
    | JArr items => normalize_from Number_toString clock 0 items
    | JObj props =>
        match props !! "models" with
        | Some (JArr items) => normalize_from Number_toString clock 0 items
        | _ => Throw MalformedConfig
        end
    | _ => Throw MalformedConfig
    end.
Proof.
  intros Hd Hn Hu. unfold parseConfigFile. rewrite Hd.
  destruct data as [| | | | | |props]; try done.
  simpl. destruct (props !! "models") as [[]|]; done.
Qed.

End YamlTotal.

(** X3 at the scenario text. *)
Lemma yaml_config_always_decodes_witness :
  exists ms,
    parseConfigFile (fun _ => "") (fun _ => None) (fun _ => "") scenario_text
      "models.yaml" = Ok ms
    /\ length ms = length (parseYaml_records scenario_text).
Proof.
  exact (yaml_config_always_decodes (fun _ => "") (fun _ => None) (fun _ => "")
           scenario_text "models.yaml" eq_refl).
Defined.

(** X4 at the document [{}]. *)
Lemma config_shape_checked_witness :
  parseConfigFile (fun _ => "") (fun _ => Some (JObj ∅)) (fun _ => "") "{}"
    "models.json"
  = Throw MalformedConfig.
Proof.
  rewrite (config_shape_checked (fun _ => "") (fun _ => Some (JObj ∅)) (fun _ => "")
             "{}" "models.json" (JObj ∅));
    [reflexivity | reflexivity | discriminate | discriminate].
Defined.

(** ** The round trip through the strict format *)

Section RoundTrip.

Variable Number_toString : float -> string.

Local Abbreviation normalize := (normalizeModel Number_toString).

Lemma get_json_image props k :
  Js.get (json_image (JObj props)) k
  = Ok (json_prop (default JUndefined (props !! k))).
Proof.
  simpl. rewrite lookup_omap. destruct (props !! k) as [w|]; [|done].
  destruct w; done.
Qed.

Lemma string_field_filled props k dflt s :
  props !! k = Some (JStr s) ->
  string_field Number_toString (JObj props) k dflt = Ok (fill s dflt)
  /\ string_field Number_toString (json_image (JObj props)) k dflt = Ok (fill s dflt).
Proof.
  intros Hk. unfold string_field. rewrite get_json_image. simpl. rewrite Hk. simpl.
  unfold Js.or, fill. simpl. destruct (Str.nonempty s); done.
Qed.

Lemma time_field_filled props k1 k2 now s :
  props !! k1 = Some (JStr s) -> props !! k2 = None ->
  time_field Number_toString (JObj props) k1 k2 now = Ok (fill s now)
  /\ time_field Number_toString (json_image (JObj props)) k1 k2 now = Ok (fill s now).
Proof.
  intros H1 H2. unfold time_field. rewrite !get_json_image. simpl.
  rewrite H1, H2. simpl. unfold Js.or, fill. simpl.
  destruct (Str.nonempty s) eqn:E; simpl; rewrite ?E; done.
Qed.

Lemma fill_empty s : fill s "" = s.
Proof.
  unfold fill, Str.nonempty. destruct (String.eqb_spec s ""); simpl; congruence.
Qed.

Lemma validateStatus_status_name s : validateStatus (JStr (status_name s)) = s.
Proof. destruct s; reflexivity. Qed.

Lemma number_or_undefined_opt x : number_or_undefined (opt_number x) = x.
Proof. destruct x; reflexivity. Qed.

Lemma string_or_undefined_opt x : string_or_undefined (opt_string x) = x.
Proof. destruct x; reflexivity. Qed.

Lemma number_read_back x :
  json_exact_opt x -> number_or_undefined (json_prop (opt_number x)) = x.
Proof.
  destruct x as [v|]; simpl; [|done]. unfold json_exact. intros ->. done.
Qed.

Lemma string_read_back x : string_or_undefined (json_prop (opt_string x)) = x.
Proof. destruct x; reflexivity. Qed.

Lemma metrics_group_model mm :
  metrics_group (match mm with Some x => metrics_to_js x | None => JUndefined end)
  = Ok mm.
Proof. destruct mm as [[[a|] [l|]]|]; reflexivity. Qed.

Lemma files_group_model ff :
  files_group (match ff with Some x => files_to_js x | None => JUndefined end)
  = Ok ff.
Proof.
  destruct ff as [[[f1|] [f2|] [f3|] [f4|] [f5|]]|]; reflexivity.
Qed.

Lemma metrics_group_read_back mm :
  match mm with
  | Some g => json_exact_opt (accuracy g) /\ json_exact_opt (latency g)
  | None => True
  end ->
  metrics_group
    (json_prop (match mm with Some x => metrics_to_js x | None => JUndefined end))
  = Ok mm.
Proof.
  destruct mm as [[a l]|]; [|done]. simpl accuracy. simpl latency. intros [Ha Hl].
  unfold metrics_to_js, json_prop, metrics_group. simpl accuracy. simpl latency.
  set (props := <["accuracy" := _]> _).
  change (Js.truthy (json_image (JObj props))) with true. cbv iota.
  rewrite !get_json_image.
  change (props !! "accuracy") with (Some (opt_number a)).
  change (props !! "latency") with (Some (opt_number l)).
  simpl. by rewrite !number_read_back.
Qed.

Lemma files_group_read_back ff :
  files_group
    (json_prop (match ff with Some x => files_to_js x | None => JUndefined end))
  = Ok ff.
Proof.
  destruct ff as [[f1 f2 f3 f4 f5]|]; [|done].
  unfold files_to_js, json_prop, files_group.
  simpl modelCard. simpl trainingScript. simpl featureScript.
  simpl inferenceScript. simpl modelFile.
  set (props := <["modelCard" := _]> _).
  change (Js.truthy (json_image (JObj props))) with true. cbv iota.
  rewrite !get_json_image.
  change (props !! "modelCard") with (Some (opt_string f1)).
  change (props !! "trainingScript") with (Some (opt_string f2)).
  change (props !! "featureScript") with (Some (opt_string f3)).
  change (props !! "inferenceScript") with (Some (opt_string f4)).
  change (props !! "modelFile") with (Some (opt_string f5)).
  simpl. by rewrite !string_read_back.
Qed.

(** [normalizeModel] on the object of a model, and on that object read back
    from the strict format. *)
Lemma normalizeModel_model now index m :
  normalize now (model_to_js m) index = Ok (renormalize now index m).
Proof.
  unfold normalizeModel, model_to_js.
  set (props := <["id" := _]> _).
  destruct (string_field_filled props "id" ("model-" +:+ Str.of_nat index) (id m) eq_refl) as [-> _].
  destruct (string_field_filled props "name" "Unnamed Model" (name m) eq_refl) as [-> _].
  destruct (string_field_filled props "version" "1.0.0" (version m) eq_refl) as [-> _].
  destruct (string_field_filled props "description" "" (description m) eq_refl) as [-> _].
  destruct (string_field_filled props "framework" "Unknown" (framework m) eq_refl) as [-> _].
  destruct (string_field_filled props "owner" "Unknown" (owner m) eq_refl) as [-> _].
  destruct (time_field_filled props "createdAt" "created_at" now (createdAt m) eq_refl eq_refl) as [-> _].
  destruct (time_field_filled props "updatedAt" "updated_at" now (updatedAt m) eq_refl eq_refl) as [-> _].
  change (Js.get (JObj props) "status") with (@Ok JsValue (JStr (status_name (status m)))).
  change (Js.get (JObj props) "metrics")
    with (@Ok JsValue (match metrics m with Some x => metrics_to_js x | None => JUndefined end)).
  change (Js.get (JObj props) "files")
    with (@Ok JsValue (match files m with Some x => files_to_js x | None => JUndefined end)).
  clearbody props. cbn [mbind Result_bind].
  rewrite metrics_group_model, files_group_model. cbn [mbind Result_bind].
  rewrite validateStatus_status_name.
  unfold renormalize. by rewrite fill_empty.
Qed.

Lemma normalizeModel_read_back now index m :
  json_exact_metrics m ->
  normalize now (json_image (model_to_js m)) index = Ok (renormalize now index m).
Proof.
  intros Hx. unfold normalizeModel, model_to_js.
  set (props := <["id" := _]> _).
  destruct (string_field_filled props "id" ("model-" +:+ Str.of_nat index) (id m) eq_refl) as [_ ->].
  destruct (string_field_filled props "name" "Unnamed Model" (name m) eq_refl) as [_ ->].
  destruct (string_field_filled props "version" "1.0.0" (version m) eq_refl) as [_ ->].
  destruct (string_field_filled props "description" "" (description m) eq_refl) as [_ ->].
  destruct (string_field_filled props "framework" "Unknown" (framework m) eq_refl) as [_ ->].
  destruct (string_field_filled props "owner" "Unknown" (owner m) eq_refl) as [_ ->].
  destruct (time_field_filled props "createdAt" "created_at" now (createdAt m) eq_refl eq_refl) as [_ ->].
  destruct (time_field_filled props "updatedAt" "updated_at" now (updatedAt m) eq_refl eq_refl) as [_ ->].
  rewrite !get_json_image.
  change (props !! "status") with (Some (JStr (status_name (status m)))).
  change (props !! "metrics")
    with (Some (match metrics m with Some x => metrics_to_js x | None => JUndefined end)).
  change (props !! "files")
    with (Some (match files m with Some x => files_to_js x | None => JUndefined end)).
  clearbody props. cbn [mbind Result_bind default from_option Datatypes.id].
  rewrite (metrics_group_read_back (metrics m) Hx), files_group_read_back.
  cbn [mbind Result_bind json_prop json_image].
  rewrite validateStatus_status_name.
  unfold renormalize. by rewrite fill_empty.
Qed.

Lemma renormalize_present now index m :
  fields_present m -> renormalize now index m = m.
Proof.
  intros (H1 & H2 & H3 & H4 & H5 & H6 & H7). unfold renormalize, fill.
  rewrite H1, H2, H3, H4, H5, H6, H7. destruct m; reflexivity.
Qed.

Lemma normalize_from_models clock index ms :
  normalize_from Number_toString clock index (map model_to_js ms)
  = Ok (imap (fun i m => renormalize (clock (index + i)) (index + i) m) ms).
Proof.
  revert index. induction ms as [|m ms IH]; intros index; [done|].
  simpl. rewrite normalizeModel_model. cbn [mbind Result_bind].
  rewrite IH. cbn [mbind Result_bind]. rewrite Nat.add_0_r. do 2 f_equal.
  apply imap_ext. intros i x _. simpl. by rewrite Nat.add_succ_r.
Qed.

Lemma normalize_from_read_back clock index ms :
  Forall json_exact_metrics ms ->
  normalize_from Number_toString clock index (map json_image (map model_to_js ms))
  = Ok (imap (fun i m => renormalize (clock (index + i)) (index + i) m) ms).
Proof.
  intros Hx. revert index. induction Hx as [|m ms Hm _ IH]; intros index; [done|].
  simpl. rewrite (normalizeModel_read_back _ _ _ Hm). cbn [mbind Result_bind].
  rewrite IH. cbn [mbind Result_bind]. rewrite Nat.add_0_r. do 2 f_equal.
  apply imap_ext. intros i x _. simpl. by rewrite Nat.add_succ_r.
Qed.

Lemma imap_fixed {A : Type} (P : A -> Prop) (f : nat -> A -> A) (l : list A) :
  (forall i x, P x -> f i x = x) -> Forall P l -> imap f l = l.
Proof.
  intros Hf Hl. revert f Hf. induction Hl as [|x l Hx _ IH]; intros f Hf; [done|].
  simpl. rewrite (Hf 0 x Hx). f_equal. apply IH. intros i y Hy. apply Hf, Hy.
Qed.

Lemma imap_renormalize_present clock ms :
  Forall fields_present ms ->
  imap (fun i m => renormalize (clock i) i m) ms = ms.
Proof.
  apply imap_fixed. intros i m. apply renormalize_present.
Qed.

End RoundTrip.

Section RoundTripTheorem.

Variable Number_toString : float -> string.
Variable JSON_parse : string -> option JsValue.
Variable JSON_stringify : JsValue -> string.
Variable clock : nat -> string.

(** C9 (amended). Take a list of models whose metric values the strict
    format carries unchanged (finite numbers other than the negative zero),
    write it with [JSON.stringify] and decode the text with
    [parseConfigFile] under a path that is not YAML, on a host whose
    [JSON.parse] reads back what its [JSON.stringify] wrote. The call
    returns, and its result is the list obtained by normalising the
    original models at the same positions and clock; when no string field
    that has a non-empty default is empty, the result is the original
    list. *)
Theorem strict_format_round_trip path ms :
  isYamlPath path = false ->
  JSON_parse (JSON_stringify (models_to_js ms)) = Some (json_image (models_to_js ms)) ->
  Forall json_exact_metrics ms ->
  exists decoded,
    parseConfigFile Number_toString JSON_parse clock
      (JSON_stringify (models_to_js ms)) path = Ok decoded
    /\ normalize_from Number_toString clock 0 (map model_to_js ms) = Ok decoded
    /\ (Forall fields_present ms -> decoded = ms).
Proof.
  intros Hp Hj Hx.
  exists (imap (fun i m => renormalize (clock i) i m) ms).
  split; [|split].
  - unfold parseConfigFile.
    rewrite (decodeConfig_json JSON_parse _ path _ Hp Hj).
    cbn [mbind Result_bind models_to_js json_image extractModels Js.isArray].
    apply (normalize_from_read_back Number_toString clock 0 ms Hx).
  - apply (normalize_from_models Number_toString clock 0 ms).
  - intros Hf. by apply imap_renormalize_present.
Qed.

End RoundTripTheorem.

(** C9 at the one-element list of the first model of the scenario. *)
Lemma strict_format_round_trip_witness :
  parseConfigFile (fun _ => "")
    (fun _ => Some (json_image (models_to_js [scenario_model1])))
    (fun _ => "") "[...]" "models.json"
  = Ok [scenario_model1].
Proof.
  destruct (strict_format_round_trip (fun _ => "")
              (fun _ => Some (json_image (models_to_js [scenario_model1])))
              (fun _ => "[...]") (fun _ => "") "models.json" [scenario_model1])
    as (decoded & Hd & _ & Hp).
  - reflexivity.
  - reflexivity.
  - repeat constructor.
  - rewrite Hd. f_equal. apply Hp. repeat constructor.
Defined.

(** C9, the claim as stated fails: [slow_model] is a model that
    [normalizeModel] returns unchanged, and its latency is infinite. The
    strict format writes that number as [null], so the decoded model has no
    latency, while the normalisation of the original keeps it. *)
Lemma infinite_latency_lost_in_round_trip :
  (forall Number_toString now index,
     normalizeModel Number_toString now (model_to_js slow_model) index = Ok slow_model)
  /\ (forall Number_toString JSON_parse JSON_stringify clock,
        JSON_parse (JSON_stringify (models_to_js [slow_model]))
        = Some (json_image (models_to_js [slow_model])) ->
        parseConfigFile Number_toString JSON_parse clock
          (JSON_stringify (models_to_js [slow_model])) "models.json"
        = Ok [slow_model_read_back]
        /\ normalize_from Number_toString clock 0 (map model_to_js [slow_model])
           = Ok [slow_model])
  /\ slow_model_read_back <> slow_model.
Proof.
  split; [|split].
  - intros ntos now index. rewrite normalizeModel_model. reflexivity.
  - intros ntos jp js clock Hj. split.
    + unfold parseConfigFile.
      rewrite (decodeConfig_json jp _ "models.json" _ eq_refl Hj).
      vm_compute. reflexivity.
    + rewrite normalize_from_models. reflexivity.
  - intros [=].
Qed.

(** ** The cache and the fetch *)

Section FetchFacts.

Variable Number_toString : float -> string.
Variable JSON_parse : string -> option JsValue.
Variable JSON_stringify : JsValue -> string.
Variable Date_parse : string -> option Z.
Variable atob : string -> option string.
Variable fetch : Request -> option Response.
Variable now : Z.
Variable clock : nat -> string.
Variable nowISO : string.

Local Abbreviation getCache' := (getCache Number_toString JSON_parse Date_parse now).
Local Abbreviation fetchModels :=
  (fetchModelsFromGitHub Number_toString JSON_parse JSON_stringify Date_parse
     atob fetch now clock nowISO).

Lemma try_catch_returns {A : Type} (body : Result A) (a : A) :
  exists v, try_catch body (Ok a) = Ok v.
Proof. destruct body; simpl; eauto. Qed.

Lemma getCache_returns ls : exists cached, getCache' ls = Ok cached.
Proof.
  unfold getCache. destruct (ls !! CACHE_KEY) as [stored|]; [|eauto].
  destruct (negb (Str.nonempty stored)); [eauto|]. apply try_catch_returns.
Qed.

Lemma getSettings_returns ls : exists v, getSettings JSON_parse ls = Ok v.
Proof.
  unfold getSettings. destruct (ls !! SETTINGS_KEY) as [stored|]; [|eauto].
  destruct (negb (Str.nonempty stored)); [eauto|]. apply try_catch_returns.
Qed.

Lemma getCache_unreadable ls :
  unreadable JSON_parse ls CACHE_KEY -> getCache' ls = Ok JNull.
Proof.
  unfold unreadable, getCache. destruct (ls !! CACHE_KEY) as [stored|]; [|done].
  intros Hp. destruct (negb (Str.nonempty stored)); [done|].
  unfold JSON_parse_or_throw. rewrite Hp. done.
Qed.

Lemma getSettings_unreadable ls :
  unreadable JSON_parse ls SETTINGS_KEY -> getSettings JSON_parse ls = Ok JNull.
Proof.
  unfold unreadable, getSettings. destruct (ls !! SETTINGS_KEY) as [stored|]; [|done].
  intros Hp. destruct (negb (Str.nonempty stored)); [done|].
  unfold JSON_parse_or_throw. rewrite Hp. done.
Qed.

Lemma fetch_on_hit settings ls cached :
  getCache' ls = Ok cached ->
  cache_hit cached (repoUrl_of settings) = true ->
  fetchModels settings ls
  = mkRun (models ← Js.get cached "models"; Ok (FromCache models)) ls [].
Proof. intros Hc Hh. unfold fetchModelsFromGitHub. rewrite Hc, Hh. done. Qed.

Lemma fetch_on_miss settings ls cached :
  getCache' ls = Ok cached ->
  cache_hit cached (repoUrl_of settings) = false ->
  requests (fetchModels settings ls) = [config_request settings]
  /\ (forall response,
        fetch (config_request settings) = Some response ->
        ok response = false ->
        fetchModels settings ls
        = mkRun (Throw (classify settings response)) ls [config_request settings]).
Proof.
  intros Hc Hh. unfold fetchModelsFromGitHub. rewrite Hc, Hh. split.
  - destruct (fetch _) as [response|]; [|done].
    destruct (negb (ok response)); [done|].
    destruct (decode_response _ _ _ _ _ _); done.
  - intros response -> ->. done.
Qed.

(** C2. On a cache miss, a response to the config request that is not
    successful makes the call fail, by its status: 404 with the
    [ConfigNotFound] error whose message ends with the configured path,
    401 with [InvalidCredential], 403 with [RateLimitedOrDenied], and any
    other status with the [TransportError] that carries the status. *)
Theorem unsuccessful_response_classified settings ls cached response :
  getCache' ls = Ok cached ->
  cache_hit cached (repoUrl_of settings) = false ->
  fetch (config_request settings) = Some response ->
  ok response = false ->
  let run := fetchModels settings ls in
  (status_code response = 404 ->
     outcome run = Throw (Error ("Config file not found: " +:+ configPath settings)))
  /\ (status_code response = 401 ->
        outcome run = Throw (Error "Invalid GitHub token"))
  /\ (status_code response = 403 ->
        outcome run = Throw (Error "Rate limited or access denied"))
  /\ (status_code response <> 404 -> status_code response <> 401 ->
      status_code response <> 403 ->
        outcome run
        = Throw (Error ("GitHub API error: " +:+ Str.of_nat (status_code response)))).
Proof.
  intros Hc Hh Hf Hok run.
  destruct (fetch_on_miss settings ls cached Hc Hh) as [_ Hrun].
  subst run. rewrite (Hrun response Hf Hok). unfold classify. simpl.
  repeat split.
  - intros ->. done.
  - intros ->. done.
  - intros ->. done.
  - intros H1 H2 H3.
    apply Nat.eqb_neq in H1, H2, H3. rewrite H1, H2, H3. done.
Qed.

(** C10. [getSettings] and [getCache] always return. When the stored
    value is absent or is not parseable as JSON they return [null]: with
    such settings [fetchFileContent] fails as not configured and
    [getGitHubFileUrl] gives [null]; with such a cache entry
    [fetchModelsFromGitHub] sends the config request. *)
Theorem storage_reads_never_raise ls :
  (returns (getSettings JSON_parse ls) /\ returns (getCache' ls))
  /\ (unreadable JSON_parse ls SETTINGS_KEY ->
        getSettings JSON_parse ls = Ok JNull
        /\ fetchFileContent_settings JSON_parse ls = Throw NotConfigured
        /\ forall filePath,
             getGitHubFileUrl Number_toString JSON_parse filePath ls = Ok None)
  /\ (unreadable JSON_parse ls CACHE_KEY ->
        getCache' ls = Ok JNull
        /\ forall settings,
             requests (fetchModels settings ls) = [config_request settings]).
Proof.
  split; [split; [apply getSettings_returns | apply getCache_returns]|].
  split.
  - intros Hu. pose proof (getSettings_unreadable ls Hu) as Hs.
    split; [done|].
    unfold fetchFileContent_settings, getGitHubFileUrl. rewrite Hs. done.
  - intros Hu. pose proof (getCache_unreadable ls Hu) as Hc.
    split; [done|]. intros settings.
    apply (fetch_on_miss settings ls JNull Hc). done.
Qed.

End FetchFacts.

(** C2 at the statuses 404 and 500, with an empty storage. *)
Lemma unsuccessful_response_classified_witness :
  outcome (fetchModelsFromGitHub (fun _ => "") (fun _ => None) (fun _ => "")
             (fun _ => None) (fun _ => None)
             (fun _ => Some (mkResponse 404 "")) 0%Z (fun _ => "") ""
             sample_settings ∅)
  = Throw (Error "Config file not found: models.yaml")
  /\ outcome (fetchModelsFromGitHub (fun _ => "") (fun _ => None) (fun _ => "")
                (fun _ => None) (fun _ => None)
                (fun _ => Some (mkResponse 500 "")) 0%Z (fun _ => "") ""
                sample_settings ∅)
     = Throw (Error "GitHub API error: 500").
Proof.
  split.
  - apply (unsuccessful_response_classified (fun _ => "") (fun _ => None)
             (fun _ => "") (fun _ => None) (fun _ => None)
             (fun _ => Some (mkResponse 404 "")) 0%Z (fun _ => "") ""
             sample_settings ∅ JNull (mkResponse 404 "")); reflexivity.
  - apply (unsuccessful_response_classified (fun _ => "") (fun _ => None)
             (fun _ => "") (fun _ => None) (fun _ => None)
             (fun _ => Some (mkResponse 500 "")) 0%Z (fun _ => "") ""
             sample_settings ∅ JNull (mkResponse 500 ""));
      try reflexivity; simpl; discriminate.
Defined.

(** C10 at a storage whose two values are not JSON. *)
Lemma storage_reads_never_raise_witness :
  getSettings (fun _ => None) corrupted_storage = Ok JNull
  /\ getCache (fun _ => "") (fun _ => None) (fun _ => None) 0%Z corrupted_storage
     = Ok JNull
  /\ requests (fetchModelsFromGitHub (fun _ => "") (fun _ => None) (fun _ => "")
                 (fun _ => None) (fun _ => None) (fun _ => None) 0%Z
                 (fun _ => "") "" sample_settings corrupted_storage)
     = [config_request sample_settings].
Proof.
  destruct (storage_reads_never_raise (fun _ => "") (fun _ => None) (fun _ => "")
              (fun _ => None) (fun _ => None) (fun _ => None) 0%Z (fun _ => "") ""
              corrupted_storage) as (_ & Hs & Hc).
  split; [apply Hs; reflexivity|].
  split; [apply Hc; reflexivity|].
  apply Hc. reflexivity.
Defined.

Section CacheDecision.

Variable Number_toString : float -> string.
Variable JSON_parse : string -> option JsValue.
Variable JSON_stringify : JsValue -> string.
Variable Date_parse : string -> option Z.
Variable atob : string -> option string.
Variable fetch : Request -> option Response.
Variable now : Z.
Variable clock : nat -> string.
Variable nowISO : string.

Local Abbreviation getCache' := (getCache Number_toString JSON_parse Date_parse now).
Local Abbreviation fetchModels :=
  (fetchModelsFromGitHub Number_toString JSON_parse JSON_stringify Date_parse
     atob fetch now clock nowISO).

(** What [getCache] returns for an entry that parses to an object. *)
Lemma getCache_entry ls stored entry :
  ls !! CACHE_KEY = Some stored ->
  Str.nonempty stored = true ->
  JSON_parse stored = Some (JObj entry) ->
  getCache' ls
  = match Date_getTime Number_toString Date_parse
            (default JUndefined (entry !! "lastFetched")) with
    | Ok lastFetched => if expired now lastFetched then Ok JNull else Ok (JObj entry)
    | Throw _ => Ok JNull
    end.
Proof.
  intros Hs Hn Hp. unfold getCache, JSON_parse_or_throw.
  rewrite Hs, Hn, Hp. simpl.
  destruct (Date_getTime _ _ _) as [lastFetched|e]; simpl; [|done].
  destruct (expired now lastFetched); done.
Qed.

Lemma cache_hit_entry entry repoUrl :
  cache_hit (JObj entry) repoUrl
  = Js.strict_eq_string (default JUndefined (entry !! "repoUrl")) repoUrl.
Proof. reflexivity. Qed.

(** C1 (the code departs from the claim). A stored entry for the requested
    repository whose [lastFetched] does not parse as a date has the age
    [NaN]; the comparison of [getCache] is false for it at every time
    [now], so the entry is served without a network request, however old
    it is. *)
Theorem unparseable_timestamp_entry_is_served settings ls stored entry t :
  ls !! CACHE_KEY = Some stored ->
  Str.nonempty stored = true ->
  JSON_parse stored = Some (JObj entry) ->
  entry !! "repoUrl" = Some (JStr (repoUrl_of settings)) ->
  entry !! "lastFetched" = Some (JStr t) ->
  Date_parse t = None ->
  fetchModels settings ls
  = mkRun (Ok (FromCache (default JUndefined (entry !! "models")))) ls [].
Proof.
  intros Hs Hn Hp Hr Hl Hd.
  assert (Hc : getCache' ls = Ok (JObj entry)).
  { rewrite (getCache_entry ls stored entry Hs Hn Hp), Hl. simpl. rewrite Hd. done. }
  rewrite (fetch_on_hit _ _ _ _ _ _ _ _ _ settings ls (JObj entry) Hc).
  - done.
  - rewrite cache_hit_entry, Hr. simpl. apply String.eqb_refl.
Qed.

End CacheDecision.

(** C1 at the entry [stale_entry], read in the year 2100. *)
Lemma unparseable_timestamp_entry_is_served_witness :
  fetchModelsFromGitHub (fun _ => "") (fun _ => Some (JObj stale_entry))
    (fun _ => "") (fun _ => None) (fun _ => None) (fun _ => None)
    4102444800000%Z (fun _ => "") "" (mkSettings "o" "r" "main" "models.yaml" "")
    (<[CACHE_KEY := "stale"]> ∅)
  = mkRun (Ok (FromCache (JArr []))) (<[CACHE_KEY := "stale"]> ∅) [].
Proof.
  apply (unparseable_timestamp_entry_is_served (fun _ => "")
           (fun _ => Some (JObj stale_entry)) (fun _ => "") (fun _ => None)
           (fun _ => None) (fun _ => None) 4102444800000%Z (fun _ => "") ""
           (mkSettings "o" "r" "main" "models.yaml" "")
           (<[CACHE_KEY := "stale"]> ∅) "stale" stale_entry "not a date");
    reflexivity.
Defined.

Section CacheProperties.

Variable Number_toString : float -> string.
Variable JSON_parse : string -> option JsValue.
Variable JSON_stringify : JsValue -> string.
Variable Date_parse : string -> option Z.
Variable atob : string -> option string.
Variable clock : nat -> string.
Variable nowISO : string.

Local Abbreviation fetchModelsAt fetch now :=
  (fetchModelsFromGitHub Number_toString JSON_parse JSON_stringify Date_parse
     atob fetch now clock nowISO).

(** X1. For a stored entry that parses to an object and whose
    [lastFetched] denotes the time [t], the call is served from the cache
    (it returns the [models] of the entry, leaves the storage as it is and
    sends nothing) when the [repoUrl] of the entry is the requested
    identity and [now - t] does not exceed the TTL; in every other such
    case it sends the config request. *)
Theorem cache_decision_for_dated_entry fetch now settings ls stored entry t :
  ls !! CACHE_KEY = Some stored ->
  Str.nonempty stored = true ->
  JSON_parse stored = Some (JObj entry) ->
  Date_getTime Number_toString Date_parse
    (default JUndefined (entry !! "lastFetched")) = Ok (Some t) ->
  if Js.strict_eq_string (default JUndefined (entry !! "repoUrl")) (repoUrl_of settings)
     && (now - t <=? CACHE_TTL)%Z
  then fetchModelsAt fetch now settings ls
       = mkRun (Ok (FromCache (default JUndefined (entry !! "models")))) ls []
  else requests (fetchModelsAt fetch now settings ls) = [config_request settings].
Proof.
  intros Hs Hn Hp Ht.
  pose proof (getCache_entry Number_toString JSON_parse Date_parse now
                ls stored entry Hs Hn Hp) as Hc.
  rewrite Ht in Hc. unfold expired in Hc. rewrite Z.ltb_antisym in Hc.
  destruct (now - t <=? CACHE_TTL)%Z; cbn [negb] in Hc.
  - rewrite andb_true_r.
    destruct (Js.strict_eq_string _ _) eqn:Hr.
    + by rewrite (fetch_on_hit _ _ _ _ _ _ _ _ _ settings ls (JObj entry) Hc).
    + by apply (fetch_on_miss _ _ _ _ _ _ _ _ _ settings ls (JObj entry) Hc).
  - rewrite andb_false_r.
    by apply (fetch_on_miss _ _ _ _ _ _ _ _ _ settings ls JNull Hc).
Qed.

(** The cache object written by [setCache], read back by [getCache]. *)
Lemma getCache_after_setCache now parsed repoUrl ls t0 :
  let cache := JObj (<["models" := models_to_js parsed]>
                    (<["lastFetched" := JStr nowISO]>
                    (<["repoUrl" := JStr repoUrl]> ∅))) in
  Str.nonempty (JSON_stringify cache) = true ->
  JSON_parse (JSON_stringify cache) = Some (json_image cache) ->
  Date_parse nowISO = Some t0 ->
  getCache Number_toString JSON_parse Date_parse now
    (setCache JSON_stringify nowISO parsed repoUrl ls)
  = if expired now (Some t0) then Ok JNull else Ok (json_image cache).
Proof.
  intros cache Hn Hj Hd. unfold getCache, setCache. fold cache.
  rewrite lookup_insert_eq, Hn. simpl negb. cbv iota.
  unfold JSON_parse_or_throw. rewrite Hj. cbn [mbind Result_bind].
  subst cache. rewrite get_json_image.
  change ((<["models" := _]> _) !! "lastFetched") with (Some (JStr nowISO)).
  cbn [mbind Result_bind default from_option Datatypes.id json_prop json_image
       Date_getTime].
  rewrite Hd. cbn [mbind Result_bind try_catch].
  destruct (expired now (Some t0)); reflexivity.
Qed.

(** X2. After a call has written the cache for the identity of [settings]
    at a time that [Date.parse] reads as [t0], on a host whose [JSON.parse]
    reads back what its [JSON.stringify] wrote: a later call made at [now]
    for [settings'] is served from the cache, with the stored list and
    without a request, when [settings'] has the same identity and
    [now - t0] does not exceed the TTL (idempotence); it sends the config
    request when the TTL has elapsed (expiry) or the identity differs
    (isolation). *)
Theorem primed_cache fetch now parsed settings settings' ls t0 :
  let cache := JObj (<["models" := models_to_js parsed]>
                    (<["lastFetched" := JStr nowISO]>
                    (<["repoUrl" := JStr (repoUrl_of settings)]> ∅))) in
  let primed := setCache JSON_stringify nowISO parsed (repoUrl_of settings) ls in
  Str.nonempty (JSON_stringify cache) = true ->
  JSON_parse (JSON_stringify cache) = Some (json_image cache) ->
  Date_parse nowISO = Some t0 ->
  if String.eqb (repoUrl_of settings) (repoUrl_of settings')
     && (now - t0 <=? CACHE_TTL)%Z
  then fetchModelsAt fetch now settings' primed
       = mkRun (Ok (FromCache (json_image (models_to_js parsed)))) primed []
  else requests (fetchModelsAt fetch now settings' primed)
       = [config_request settings'].
Proof.
  intros cache primed Hn Hj Hd.
  pose proof (getCache_after_setCache now parsed (repoUrl_of settings) ls t0
                Hn Hj Hd) as Hc.
  fold cache primed in Hc. unfold expired in Hc. rewrite Z.ltb_antisym in Hc.
  assert (Hhit : cache_hit (json_image cache) (repoUrl_of settings')
                 = String.eqb (repoUrl_of settings) (repoUrl_of settings')).
  { unfold cache_hit. subst cache. rewrite get_json_image. reflexivity. }
  destruct (now - t0 <=? CACHE_TTL)%Z; cbn [negb] in Hc.
  - rewrite andb_true_r.
    destruct (String.eqb _ _) eqn:Hr.
    + rewrite (fetch_on_hit _ _ _ _ _ _ _ _ _ settings' primed _ Hc Hhit).
      subst cache. rewrite get_json_image. reflexivity.
    + by apply (fetch_on_miss _ _ _ _ _ _ _ _ _ settings' primed _ Hc).
  - rewrite andb_false_r.
    by apply (fetch_on_miss _ _ _ _ _ _ _ _ _ settings' primed JNull Hc).
Qed.

(** X7. After [invalidateCache], [saveSettings] or [clearSettings] the
    cache key is absent, whatever the storage held: [getCache] returns
    [null] and the next call of [fetchModelsFromGitHub] sends the config
    request. *)
Theorem invalidation_forces_fetch fetch now settings saved ls :
  Forall (fun cleared =>
            cleared !! CACHE_KEY = None
            /\ getCache Number_toString JSON_parse Date_parse now cleared = Ok JNull
            /\ requests (fetchModelsAt fetch now settings cleared)
               = [config_request settings])
    [invalidateCache ls; saveSettings JSON_stringify saved ls; clearSettings ls].
Proof.
  assert (Hgen : forall cleared : Storage,
             cleared !! CACHE_KEY = None ->
             cleared !! CACHE_KEY = None
             /\ getCache Number_toString JSON_parse Date_parse now cleared = Ok JNull
             /\ requests (fetchModelsAt fetch now settings cleared)
                = [config_request settings]).
  { intros cleared Hc.
    assert (Hg : getCache Number_toString JSON_parse Date_parse now cleared = Ok JNull)
      by (unfold getCache; by rewrite Hc).
    split; [done|]. split; [done|].
    by apply (fetch_on_miss _ _ _ _ _ _ _ _ _ settings cleared JNull Hg). }
  repeat (apply Forall_cons; split; [apply Hgen, lookup_delete_eq|]).
  by apply Forall_nil.
Qed.

End CacheProperties.

(** X1 one second after an entry was written. *)
Lemma cache_decision_for_dated_entry_witness :
  fetchModelsFromGitHub (fun _ => "") (fun _ => Some (JObj fresh_entry))
    (fun _ => "") (fun _ => Some year_2024) (fun _ => None) (fun _ => None)
    (year_2024 + 1000)%Z (fun _ => "") "" sample_settings
    (<[CACHE_KEY := "entry"]> ∅)
  = mkRun (Ok (FromCache (JArr []))) (<[CACHE_KEY := "entry"]> ∅) [].
Proof.
  exact (cache_decision_for_dated_entry (fun _ => "")
           (fun _ => Some (JObj fresh_entry)) (fun _ => "")
           (fun _ => Some year_2024) (fun _ => None) (fun _ => "") ""
           (fun _ => None) (year_2024 + 1000)%Z sample_settings
           (<[CACHE_KEY := "entry"]> ∅) "entry" fresh_entry year_2024
           eq_refl eq_refl eq_refl eq_refl).
Defined.

(** X2 one millisecond after the TTL has elapsed. *)
Lemma primed_cache_witness :
  requests
    (fetchModelsFromGitHub (fun _ => "") (fun _ => Some (json_image sample_cache))
       (fun _ => "entry") (fun _ => Some year_2024) (fun _ => None)
       (fun _ => None) (year_2024 + 300001)%Z (fun _ => "")
       "2024-01-01T00:00:00.000Z" sample_settings
       (setCache (fun _ => "entry") "2024-01-01T00:00:00.000Z" [scenario_model1]
          "o/r" ∅))
  = [config_request sample_settings].
Proof.
  exact (primed_cache (fun _ => "") (fun _ => Some (json_image sample_cache))
           (fun _ => "entry") (fun _ => Some year_2024) (fun _ => None)
           (fun _ => "") "2024-01-01T00:00:00.000Z" (fun _ => None)
           (year_2024 + 300001)%Z [scenario_model1] sample_settings
           sample_settings ∅ year_2024 eq_refl eq_refl eq_refl).
Defined.

(** ** Files of the repository *)

Section FileFacts.

Variable Number_toString : float -> string.
Variable JSON_parse : string -> option JsValue.
Variable JSON_stringify : JsValue -> string.
Variable Date_parse : string -> option Z.
Variable atob : string -> option string.
Variable fetch : Request -> option Response.
Variable now : Z.
Variable clock : nat -> string.
Variable nowISO : string.

Local Abbreviation fetchFile :=
  (fetchFileContent Number_toString JSON_parse atob fetch).
Local Abbreviation fetchModels :=
  (fetchModelsFromGitHub Number_toString JSON_parse JSON_stringify Date_parse
     atob fetch now clock nowISO).

(** The settings of [s] with the path [filePath] in the place of the
    config path. *)
Local Abbreviation at_path s filePath :=
  (mkSettings (repoOwner s) (repoName s) (branch s) filePath (token s)).

Lemma getSettings_cleared ls : getSettings JSON_parse (clearSettings ls) = Ok JNull.
Proof.
  unfold getSettings, clearSettings.
  rewrite lookup_delete_ne by done. by rewrite lookup_delete_eq.
Qed.

Lemma getSettings_saved s ls :
  Str.nonempty (JSON_stringify (settings_to_js s)) = true ->
  JSON_parse (JSON_stringify (settings_to_js s)) = Some (settings_to_js s) ->
  getSettings JSON_parse (saveSettings JSON_stringify s ls) = Ok (settings_to_js s).
Proof.
  intros Hn Hp. unfold getSettings, saveSettings.
  rewrite lookup_delete_ne by done. rewrite lookup_insert_eq, Hn. simpl.
  unfold JSON_parse_or_throw. by rewrite Hp.
Qed.

(** The five properties of the object that [saveSettings] writes. *)
Lemma settings_to_js_get s :
  Js.get (settings_to_js s) "repoOwner" = Ok (JStr (repoOwner s))
  /\ Js.get (settings_to_js s) "repoName" = Ok (JStr (repoName s))
  /\ Js.get (settings_to_js s) "branch" = Ok (JStr (branch s))
  /\ Js.get (settings_to_js s) "configPath" = Ok (JStr (configPath s))
  /\ Js.get (settings_to_js s) "token" = Ok (JStr (token s)).
Proof. repeat split; reflexivity. Qed.

Lemma file_request_stored s filePath :
  file_request Number_toString (settings_to_js s) filePath
  = Ok (config_request (at_path s filePath)).
Proof.
  unfold file_request, config_request.
  destruct (settings_to_js_get s) as (-> & -> & -> & _ & ->).
  cbn [mbind Result_bind Js.ToString Js.truthy repoOwner repoName branch
       configPath token].
  by destruct (Str.nonempty (token s)).
Qed.

Lemma repo_file_url_stored s prefix infix path :
  repo_file_url Number_toString (settings_to_js s) prefix infix path
  = Ok (prefix +:+ repoOwner s +:+ "/" +:+ repoName s +:+ infix +:+ branch s
          +:+ "/" +:+ path).
Proof.
  unfold repo_file_url.
  by destruct (settings_to_js_get s) as (-> & -> & -> & _ & _).
Qed.

Lemma fetchFileContent_stored s filePath ls :
  getSettings JSON_parse ls = Ok (settings_to_js s) ->
  fetchFile filePath ls
  = let request := config_request (at_path s filePath) in
    match fetch request with
    | None => mkFileRun (Throw NetworkError) [request]
    | Some response =>
        if negb (ok response)
        then mkFileRun (Throw (classify_file filePath response)) [request]
        else mkFileRun (decode_file Number_toString JSON_parse atob response)
               [request]
    end.
Proof.
  intros Hs. unfold fetchFileContent, fetchFileContent_settings.
  rewrite Hs. cbn [mbind Result_bind settings_to_js Js.truthy negb].
  by rewrite file_request_stored.
Qed.

(** X9. After [clearSettings], whatever the storage held: [getSettings]
    returns [null], [fetchFileContent] fails as not configured without
    sending a request, and [getGitHubFileUrl] and [downloadGitHubFile]
    give [null]. *)
Theorem cleared_settings_disable_file_access ls filePath :
  getSettings JSON_parse (clearSettings ls) = Ok JNull
  /\ fetchFile filePath (clearSettings ls) = mkFileRun (Throw NotConfigured) []
  /\ getGitHubFileUrl Number_toString JSON_parse filePath (clearSettings ls)
     = Ok None
  /\ downloadGitHubFile Number_toString JSON_parse filePath (clearSettings ls)
     = Ok None.
Proof.
  pose proof (getSettings_cleared ls) as Hs.
  unfold fetchFileContent, fetchFileContent_settings, getGitHubFileUrl,
    downloadGitHubFile.
  rewrite Hs. done.
Qed.

(** X10. On a host whose [JSON.parse] reads back the settings object that
    its [JSON.stringify] wrote, after [saveSettings(s)] the call
    [getSettings] returns the settings [s], and the two links of a file
    are built from them: [getGitHubFileUrl] gives the [blob] page of the
    branch and [downloadGitHubFile] the raw file under [refs/heads]. *)
Theorem saved_settings_read_back s ls filePath :
  Str.nonempty (JSON_stringify (settings_to_js s)) = true ->
  JSON_parse (JSON_stringify (settings_to_js s)) = Some (settings_to_js s) ->
  let saved := saveSettings JSON_stringify s ls in
  getSettings JSON_parse saved = Ok (settings_to_js s)
  /\ getGitHubFileUrl Number_toString JSON_parse filePath saved
     = Ok (Some ("https://github.com/" +:+ repoOwner s +:+ "/" +:+ repoName s
                   +:+ "/blob/" +:+ branch s +:+ "/" +:+ filePath))
  /\ downloadGitHubFile Number_toString JSON_parse filePath saved
     = Ok (Some ("https://raw.githubusercontent.com/" +:+ repoOwner s +:+ "/"
                   +:+ repoName s +:+ "/refs/heads/" +:+ branch s +:+ "/"
                   +:+ filePath)).
Proof.
  intros Hn Hp saved. pose proof (getSettings_saved s ls Hn Hp) as Hs.
  fold saved in Hs. split; [done|].
  unfold getGitHubFileUrl, downloadGitHubFile. rewrite Hs.
  cbn [mbind Result_bind settings_to_js Js.truthy negb].
  by rewrite !repo_file_url_stored.
Qed.

(** X11. With stored settings [s], [fetchFileContent] sends exactly one
    request, and it is the request that [fetchModelsFromGitHub] sends for
    the config file, with the path of the file in the place of the config
    path: for the config path itself the two requests are the same. *)
Theorem file_request_is_config_request s ls :
  getSettings JSON_parse ls = Ok (settings_to_js s) ->
  file_requests (fetchFile (configPath s) ls) = [config_request s]
  /\ forall filePath,
       file_requests (fetchFile filePath ls)
       = [config_request (at_path s filePath)].
Proof.
  intros Hs.
  assert (Hall : forall filePath,
             file_requests (fetchFile filePath ls)
             = [config_request (at_path s filePath)]).
  { intros filePath. rewrite (fetchFileContent_stored s filePath ls Hs).
    cbv zeta. destruct (fetch _) as [response|]; [|done].
    by destruct (negb (ok response)). }
  split; [|done]. rewrite Hall. by destruct s.
Qed.

(** X12. With stored settings, a response to the file request that is not
    successful makes [fetchFileContent] fail by its status: 404 with the
    error [File not found] that names the path, and any other status, 401
    and 403 included, with the error [Failed to fetch file] that carries
    the status. *)
Theorem file_failure_classified s ls filePath response :
  getSettings JSON_parse ls = Ok (settings_to_js s) ->
  fetch (config_request (at_path s filePath)) = Some response ->
  ok response = false ->
  (status_code response = 404 ->
     file_outcome (fetchFile filePath ls)
     = Throw (Error ("File not found: " +:+ filePath)))
  /\ (status_code response <> 404 ->
        file_outcome (fetchFile filePath ls)
        = Throw (Error ("Failed to fetch file: "
                          +:+ Str.of_nat (status_code response)))).
Proof.
  intros Hs Hf Hok. rewrite (fetchFileContent_stored s filePath ls Hs).
  cbv zeta. rewrite Hf, Hok. unfold classify_file. simpl. split.
  - by intros ->.
  - intros Hn. apply Nat.eqb_neq in Hn. by rewrite Hn.
Qed.

Lemma decode_response_file settings response :
  decode_response Number_toString JSON_parse atob clock settings response
  = (content ← decode_file Number_toString JSON_parse atob response;
     parseConfigFile Number_toString JSON_parse clock content
       (configPath settings)).
Proof.
  unfold decode_response, decode_file.
  destruct (JSON_parse_or_throw _ _) as [data|]; [|done]. simpl.
  destruct (Js.get data "content") as [raw|]; [|done]. simpl.
  destruct (Js.ToString _ raw) as [encoded|]; [|done]. simpl.
  by destruct (atob encoded).
Qed.

(** X13. With stored settings [s], on a cache miss and a successful
    response, the models that [fetchModelsFromGitHub] returns are the
    decoding by [parseConfigFile] of the text that [fetchFileContent]
    returns for the config path; either both calls fail or both return. *)
Theorem models_decode_fetched_file s ls cached response :
  getSettings JSON_parse ls = Ok (settings_to_js s) ->
  getCache Number_toString JSON_parse Date_parse now ls = Ok cached ->
  cache_hit cached (repoUrl_of s) = false ->
  fetch (config_request s) = Some response ->
  ok response = true ->
  outcome (fetchModels s ls)
  = (content ← file_outcome (fetchFile (configPath s) ls);
     parsed ← parseConfigFile Number_toString JSON_parse clock content
                (configPath s);
     Ok (Decoded parsed)).
Proof.
  intros Hs Hc Hh Hf Hok.
  rewrite (fetchFileContent_stored s (configPath s) ls Hs). cbv zeta.
  replace (at_path s (configPath s)) with s by (by destruct s).
  rewrite Hf, Hok. cbn [negb file_outcome].
  unfold fetchModelsFromGitHub. rewrite Hc, Hh, Hf, Hok. cbn [negb].
  rewrite decode_response_file.
  destruct (decode_file _ _ _ response) as [content|]; [|done].
  cbn [mbind Result_bind].
  by destruct (parseConfigFile _ _ _ content _).
Qed.

End FileFacts.


(** X10 at the settings [sample_settings] and the file [README.md]. *)
Lemma saved_settings_read_back_witness :
  getGitHubFileUrl (fun _ => "") read_settings "README.md"
    (saveSettings (fun _ => "settings") sample_settings ∅)
  = Ok (Some "https://github.com/o/r/blob/main/README.md")
  /\ downloadGitHubFile (fun _ => "") read_settings "README.md"
       (saveSettings (fun _ => "settings") sample_settings ∅)
     = Ok (Some "https://raw.githubusercontent.com/o/r/refs/heads/main/README.md").
Proof.
  exact (proj2 (saved_settings_read_back (fun _ => "") read_settings
                  (fun _ => "settings") sample_settings ∅ "README.md"
                  eq_refl eq_refl)).
Defined.

(** X11 at the settings [sample_settings]. *)
Lemma file_request_is_config_request_witness :
  file_requests (fetchFileContent (fun _ => "") read_settings (fun _ => None)
                   (fun _ => None) "models.yaml" settings_storage)
  = [config_request sample_settings].
Proof.
  exact (proj1 (file_request_is_config_request (fun _ => "") read_settings
                  (fun _ => None) (fun _ => None) sample_settings
                  settings_storage eq_refl)).
Defined.

(** X12 at the statuses 404 and 401. *)
Lemma file_failure_classified_witness :
  file_outcome (fetchFileContent (fun _ => "") read_settings (fun _ => None)
                  (fun _ => Some (mkResponse 404 "")) "README.md"
                  settings_storage)
  = Throw (Error "File not found: README.md")
  /\ file_outcome (fetchFileContent (fun _ => "") read_settings (fun _ => None)
                     (fun _ => Some (mkResponse 401 "")) "README.md"
                     settings_storage)
     = Throw (Error "Failed to fetch file: 401").
Proof.
  split.
  - apply (file_failure_classified (fun _ => "") read_settings (fun _ => None)
             (fun _ => Some (mkResponse 404 "")) sample_settings
             settings_storage "README.md" (mkResponse 404 ""));
      reflexivity.
  - apply (file_failure_classified (fun _ => "") read_settings (fun _ => None)
             (fun _ => Some (mkResponse 401 "")) sample_settings
             settings_storage "README.md" (mkResponse 401 ""));
      try reflexivity. simpl. discriminate.
Defined.

(** X13 for a response whose content decodes to an empty YAML text. *)
Lemma models_decode_fetched_file_witness :
  outcome (fetchModelsFromGitHub (fun _ => "") read_settings (fun _ => "")
             (fun _ => None) (fun _ => Some "") (fun _ => Some (mkResponse 200 ""))
             0%Z (fun _ => "") "" sample_settings settings_storage)
  = Ok (Decoded []).
Proof.
  rewrite (models_decode_fetched_file (fun _ => "") read_settings (fun _ => "")
             (fun _ => None) (fun _ => Some "")
             (fun _ => Some (mkResponse 200 "")) 0%Z (fun _ => "") ""
             sample_settings settings_storage JNull (mkResponse 200 ""));
    reflexivity.
Defined.

(** ** The settings form *)

Lemma string_append_assoc (a b c : string) : (a +:+ b) +:+ c = a +:+ (b +:+ c).
Proof. induction a as [|x a IH]; [done|]. by rewrite !append_cons, IH. Qed.

Lemma rev_app_rev s acc : String.rev_app s acc = String.rev s +:+ acc.
Proof.
  revert acc. induction s as [|a s IH]; intros acc; [done|].
  unfold String.rev. simpl. rewrite (IH (String a acc)), (IH (String a "")).
  by rewrite string_append_assoc.
Qed.

Lemma string_rev_cons c s : String.rev (String c s) = String.rev s +:+ String c "".
Proof. unfold String.rev at 1. simpl. apply rev_app_rev. Qed.

Lemma string_rev_involutive s : String.rev (String.rev s) = s.
Proof.
  induction s as [|a s IH]; [done|]. by rewrite string_rev_cons, rev_snoc, IH.
Qed.

Lemma trimStart_idem s : Str.trimStart (Str.trimStart s) = Str.trimStart s.
Proof.
  induction s as [|a s IH]; [done|]. simpl.
  destruct (Str.is_whitespace a) eqn:Ha; [done|]. simpl. by rewrite Ha.
Qed.

Lemma trimEnd_idem s : Str.trimEnd (Str.trimEnd s) = Str.trimEnd s.
Proof. unfold Str.trimEnd. by rewrite string_rev_involutive, trimStart_idem. Qed.

Lemma trimStart_trimEnd s :
  Str.trimStart s = s -> Str.trimStart (Str.trimEnd s) = Str.trimEnd s.
Proof.
  destruct s as [|c r]; [done|]. intros Hs.
  assert (Hc : Str.is_whitespace c = false).
  { simpl in Hs. destruct (Str.is_whitespace c) eqn:Hc; [|done].
    exfalso. apply (f_equal String.length) in Hs.
    assert (Hle : forall t, String.length (Str.trimStart t) <= String.length t).
    { induction t as [|a t IHt]; [done|]. simpl.
      destruct (Str.is_whitespace a); simpl; lia. }
    specialize (Hle r). simpl in Hs. lia. }
  unfold Str.trimEnd. rewrite string_rev_cons.
  destruct (trimStart_keeps_last (String.rev r) c Hc) as [u ->].
  rewrite rev_snoc. simpl. by rewrite Hc.
Qed.

(** [trim] changes nothing in a string it has returned. *)
Lemma trim_idem s : Str.trim (Str.trim s) = Str.trim s.
Proof.
  unfold Str.trim.
  rewrite (trimStart_trimEnd (Str.trimStart s) (trimStart_idem s)).
  apply trimEnd_idem.
Qed.

Lemma fill_trim_idem s dflt :
  Str.trim dflt = dflt ->
  Str.trim (fill (Str.trim s) dflt) = fill (Str.trim s) dflt.
Proof.
  intros Hd. unfold fill. destruct (Str.nonempty (Str.trim s)); [|done].
  apply trim_idem.
Qed.

Lemma fill_nonempty s dflt :
  Str.nonempty dflt = true -> Str.nonempty (fill s dflt) = true.
Proof. intros Hd. unfold fill. by destruct (Str.nonempty s) eqn:Hs. Qed.

Lemma fill_fill s dflt : fill (fill s dflt) dflt = fill s dflt.
Proof.
  unfold fill. destruct (Str.nonempty s) eqn:Hs; [by rewrite Hs|].
  by destruct (Str.nonempty dflt).
Qed.

(** X14. The settings that the form builds are normal: the branch and the
    config path are never empty, and the form filled with these settings,
    as it is when the page opens on saved settings, builds the same
    settings again. *)
Theorem form_settings_normal f :
  let s := form_settings f in
  form_settings (mkForm (repoOwner s) (repoName s) (branch s) (configPath s)
                   (token s)) = s
  /\ Str.nonempty (branch s) = true
  /\ Str.nonempty (configPath s) = true.
Proof.
  intros s. subst s. unfold form_settings. simpl. split; [|split].
  - rewrite !trim_idem, !fill_trim_idem by reflexivity.
    by rewrite !fill_fill.
  - by apply fill_nonempty.
  - by apply fill_nonempty.
Qed.

Section FormFacts.

Variable Number_toString : float -> string.
Variable JSON_parse : string -> option JsValue.
Variable JSON_stringify : JsValue -> string.
Variable Date_parse : string -> option Z.
Variable atob : string -> option string.
Variable fetch : Request -> option Response.
Variable now : Z.
Variable clock : nat -> string.
Variable nowISO : string.
Variable host_message : Exn -> string.

Local Abbreviation fetchModels :=
  (fetchModelsFromGitHub Number_toString JSON_parse JSON_stringify Date_parse
     atob fetch now clock nowISO).
Local Abbreviation decodeResponse :=
  (decode_response Number_toString JSON_parse atob clock).
Local Abbreviation testConnection :=
  (handleTestConnection Number_toString JSON_parse JSON_stringify Date_parse
     atob fetch now clock nowISO host_message).

Lemma getCache_absent ls :
  ls !! CACHE_KEY = None ->
  getCache Number_toString JSON_parse Date_parse now ls = Ok JNull.
Proof. intros Hc. unfold getCache. by rewrite Hc. Qed.

(** The run of a call that finds no cache entry. *)
Lemma fetch_uncached settings ls :
  ls !! CACHE_KEY = None ->
  fetchModels settings ls
  = let request := config_request settings in
    match fetch request with
    | None => mkRun (Throw NetworkError) ls [request]
    | Some response =>
        if negb (ok response)
        then mkRun (Throw (classify settings response)) ls [request]
        else match decodeResponse settings response with
             | Ok parsed =>
                 mkRun (Ok (Decoded parsed))
                   (setCache JSON_stringify nowISO parsed (repoUrl_of settings) ls)
                   [request]
             | Throw e => mkRun (Throw e) ls [request]
             end
    end.
Proof.
  intros Hc. unfold fetchModelsFromGitHub. by rewrite (getCache_absent ls Hc).
Qed.

Lemma fetch_uncached_requests settings ls :
  ls !! CACHE_KEY = None ->
  requests (fetchModels settings ls) = [config_request settings].
Proof.
  intros Hc. rewrite (fetch_uncached settings ls Hc). cbv zeta.
  destruct (fetch _) as [response|]; [|done].
  destruct (negb (ok response)); [done|].
  by destruct (decodeResponse settings response).
Qed.

(** X15. [handleTestConnection] never answers from the cache: whatever the
    storage holds it sends exactly one request, the request for the
    settings of the form, and the URL of that request is the URL that
    [buildApiUrl] shows in the details of the test. *)
Theorem test_connection_requests_displayed_url f ls :
  test_requests (testConnection f ls) = [config_request (form_settings f)]
  /\ map url (test_requests (testConnection f ls)) = [buildApiUrl f].
Proof.
  assert (Hr : test_requests (testConnection f ls)
               = [config_request (form_settings f)]).
  { unfold handleTestConnection.
    pose proof (fetch_uncached_requests (form_settings f) (invalidateCache ls)
                  (lookup_delete_eq ls CACHE_KEY)) as Hreq.
    destruct (_ ≫= _); simpl; exact Hreq. }
  split; [done|]. by rewrite Hr.
Qed.

(** X16. The verdict of [handleTestConnection] for a response to its
    request. A response that is not successful gives the status [error]
    with the message of its classification, and leaves no cache entry. A
    successful response that decodes to a list gives the status [success],
    the details count the models of that list, and the list is written to
    the cache; one that does not decode gives the status [error] with the
    message of the failure. *)
Theorem test_connection_verdict f ls response :
  fetch (config_request (form_settings f)) = Some response ->
  let t := testConnection f ls in
  (ok response = false ->
     testStatus t = test_error
     /\ testError t
        = Some (message host_message (classify (form_settings f) response))
     /\ testDetails t = Some ("API URL: " +:+ buildApiUrl f)
     /\ test_storage t = invalidateCache ls)
  /\ (ok response = true ->
      match decodeResponse (form_settings f) response with
      | Ok parsed =>
          testStatus t = test_success
          /\ testError t = None
          /\ testDetails t
             = Some ("Success! Found " +:+ Str.of_nat (length parsed)
                       +:+ " model(s).")
          /\ test_storage t
             = setCache JSON_stringify nowISO parsed
                 (repoUrl_of (form_settings f)) (invalidateCache ls)
      | Throw e =>
          testStatus t = test_error
          /\ testError t = Some (message host_message e)
          /\ test_storage t = invalidateCache ls
      end).
Proof.
  intros Hf t. subst t. unfold handleTestConnection.
  rewrite (fetch_uncached (form_settings f) (invalidateCache ls)
             (lookup_delete_eq ls CACHE_KEY)).
  cbv zeta. rewrite Hf. split.
  - intros ->. done.
  - intros ->. cbn [negb].
    destruct (decodeResponse (form_settings f) response) as [parsed|e]; done.
Qed.

End FormFacts.


(** X16 at a form with blanks around the owner and a response of status
    401. *)
Lemma test_connection_verdict_witness :
  testStatus (handleTestConnection (fun _ => "") (fun _ => None) (fun _ => "")
                (fun _ => None) (fun _ => None)
                (fun _ => Some (mkResponse 401 "")) 0%Z (fun _ => "") ""
                (fun _ => "") sample_form ∅)
  = test_error
  /\ testError (handleTestConnection (fun _ => "") (fun _ => None) (fun _ => "")
                  (fun _ => None) (fun _ => None)
                  (fun _ => Some (mkResponse 401 "")) 0%Z (fun _ => "") ""
                  (fun _ => "") sample_form ∅)
     = Some "Invalid GitHub token".
Proof.
  destruct (test_connection_verdict (fun _ => "") (fun _ => None) (fun _ => "")
              (fun _ => None) (fun _ => None)
              (fun _ => Some (mkResponse 401 "")) 0%Z (fun _ => "") ""
              (fun _ => "") sample_form ∅ (mkResponse 401 "") eq_refl)
    as [Hfail _].
  destruct (Hfail eq_refl) as (Hs & He & _). split; [exact Hs | exact He].
Defined.

(** ** The application state *)

Section AppFacts.

Variable Number_toString : float -> string.
Variable JSON_parse : string -> option JsValue.
Variable JSON_stringify : JsValue -> string.
Variable Date_parse : string -> option Z.
Variable atob : string -> option string.
Variable fetch : Request -> option Response.
Variable now : Z.
Variable clock : nat -> string.
Variable nowISO : string.
Variable host_message : Exn -> string.
Variable initialModels : list Model.

Local Abbreviation fetchModels :=
  (fetchModelsFromGitHub Number_toString JSON_parse JSON_stringify Date_parse
     atob fetch now clock nowISO).
Local Abbreviation load :=
  (loadModels Number_toString JSON_parse JSON_stringify Date_parse atob fetch
     now clock nowISO host_message initialModels).
Local Abbreviation stored_load :=
  (loadStored Number_toString JSON_parse JSON_stringify Date_parse atob fetch
     now clock nowISO host_message initialModels).
Local Abbreviation refresh :=
  (handleRefresh Number_toString JSON_parse JSON_stringify Date_parse atob
     fetch now clock nowISO host_message initialModels).
Local Abbreviation disconnect :=
  (Settings_handleDisconnect Number_toString JSON_parse JSON_stringify
     Date_parse atob fetch now clock nowISO host_message initialModels).
Local Abbreviation submit :=
  (Settings_handleSubmit Number_toString JSON_parse JSON_stringify Date_parse
     atob fetch now clock nowISO host_message initialModels).

Lemma fetch_keeps_other_keys settings ls k :
  k <> CACHE_KEY -> storage (fetchModels settings ls) !! k = ls !! k.
Proof.
  intros Hk. unfold fetchModelsFromGitHub.
  destruct (getCache _ _ _ _ ls) as [cached|e0]; [|done].
  destruct (cache_hit cached _); [done|].
  destruct (fetch _) as [response|]; [|done].
  destruct (negb (ok response)); [done|].
  destruct (decode_response _ _ _ _ _ _) as [parsed|e1]; [|done].
  simpl. unfold setCache. by rewrite lookup_insert_ne.
Qed.

(** X17. [fetchModelsFromGitHub] writes nothing but the cache entry: every
    other key of the storage, the settings included, is left as it was;
    and a call that fails, or that sends no request, leaves the whole
    storage as it was. *)
Theorem fetch_writes_only_cache settings ls :
  (forall k, k <> CACHE_KEY ->
     storage (fetchModels settings ls) !! k = ls !! k)
  /\ (forall e, outcome (fetchModels settings ls) = Throw e ->
        storage (fetchModels settings ls) = ls)
  /\ (requests (fetchModels settings ls) = [] ->
        storage (fetchModels settings ls) = ls).
Proof.
  split; [intros k Hk; by apply fetch_keeps_other_keys|].
  unfold fetchModelsFromGitHub.
  destruct (getCache _ _ _ _ ls) as [cached|e0]; [|done].
  destruct (cache_hit cached _); [done|].
  destruct (fetch _) as [response|]; [|done].
  destruct (negb (ok response)); [done|].
  by destruct (decode_response _ _ _ _ _ _) as [parsed|e1].
Qed.

Lemma getSettings_invalidated ls :
  getSettings JSON_parse (invalidateCache ls) = getSettings JSON_parse ls.
Proof.
  unfold getSettings, invalidateCache. by rewrite lookup_delete_ne.
Qed.

Lemma settings_of_js_stored s : settings_of_js (settings_to_js s) = Some s.
Proof. by destruct s. Qed.

Lemma refresh_stored s ls :
  getSettings JSON_parse ls = Ok (settings_to_js s) ->
  refresh ls = Some (load (Some s) (invalidateCache ls)).
Proof.
  intros Hs. unfold handleRefresh, loadStored.
  rewrite getSettings_invalidated, Hs.
  cbn [settings_to_js Js.truthy negb]. fold (settings_to_js s).
  by rewrite settings_of_js_stored.
Qed.

(** X18. With stored settings [s] and a cache entry of their repository
    that is not older than the TTL, the page starts from the cache: the
    load of the stored settings ends in the status [connected] with the
    models of the entry, sends nothing and writes nothing. In the same
    storage [handleRefresh] sends the config request. *)
Theorem startup_serves_fresh_cache s ls stored entry t :
  getSettings JSON_parse ls = Ok (settings_to_js s) ->
  ls !! CACHE_KEY = Some stored ->
  Str.nonempty stored = true ->
  JSON_parse stored = Some (JObj entry) ->
  Date_getTime Number_toString Date_parse
    (default JUndefined (entry !! "lastFetched")) = Ok (Some t) ->
  entry !! "repoUrl" = Some (JStr (repoUrl_of s)) ->
  (now - t <= CACHE_TTL)%Z ->
  stored_load ls
  = Some (mkAppRun (FromCache (default JUndefined (entry !! "models")))
            connected None false ls [])
  /\ exists r, refresh ls = Some r /\ app_requests r = [config_request s].
Proof.
  intros Hs Hk Hn Hp Ht Hr Hle. split.
  - unfold loadStored. rewrite Hs.
    cbn [settings_to_js Js.truthy negb]. fold (settings_to_js s).
    rewrite settings_of_js_stored. cbn [mbind option_bind].
    assert (Hc : getCache Number_toString JSON_parse Date_parse now ls
                 = Ok (JObj entry)).
    { rewrite (getCache_entry Number_toString JSON_parse Date_parse now
                 ls stored entry Hk Hn Hp), Ht.
      unfold expired. by rewrite (proj2 (Z.ltb_ge _ _) Hle). }
    assert (Hh : cache_hit (JObj entry) (repoUrl_of s) = true).
    { rewrite cache_hit_entry, Hr. simpl. apply String.eqb_refl. }
    unfold loadModels.
    by rewrite (fetch_on_hit Number_toString JSON_parse JSON_stringify
                  Date_parse atob fetch now clock nowISO s ls (JObj entry) Hc Hh).
  - rewrite (refresh_stored s ls Hs). eexists. split; [done|].
    unfold loadModels.
    pose proof (fetch_uncached_requests Number_toString JSON_parse
                  JSON_stringify Date_parse atob fetch now clock nowISO s
                  (invalidateCache ls) (lookup_delete_eq ls CACHE_KEY)) as Hreq.
    by destruct (outcome _).
Qed.

(** X19. With stored settings [s], when the response to the config request
    is not successful, [handleRefresh] ends in the status [error] with the
    text of the classified failure as message, shows the built-in models
    and leaves no cache entry. *)
Theorem refresh_reports_failure s ls response text :
  getSettings JSON_parse ls = Ok (settings_to_js s) ->
  fetch (config_request s) = Some response ->
  ok response = false ->
  classify s response = Error text ->
  refresh ls
  = Some (mkAppRun (Decoded initialModels) connection_error (Some text) false
            (invalidateCache ls) [config_request s]).
Proof.
  intros Hs Hf Hok Hc. rewrite (refresh_stored s ls Hs). unfold loadModels.
  rewrite (fetch_uncached Number_toString JSON_parse JSON_stringify
             Date_parse atob fetch now clock nowISO s (invalidateCache ls)
             (lookup_delete_eq ls CACHE_KEY)).
  cbv zeta. rewrite Hf, Hok. simpl. by rewrite Hc.
Qed.

Lemma refresh_unreadable ls :
  unreadable JSON_parse ls SETTINGS_KEY ->
  refresh ls
  = Some (mkAppRun (Decoded initialModels) disconnected None false
            (invalidateCache ls) []).
Proof.
  intros Hu. unfold handleRefresh, loadStored.
  rewrite getSettings_invalidated.
  by rewrite (getSettings_unreadable JSON_parse ls Hu).
Qed.

(** X20. Submitting the settings form stores the settings of the form and
    fetches with them: whatever the storage held, exactly one request is
    sent, the config request of these settings, and afterwards the
    settings key holds their text, whether the fetch succeeded or not; a
    host whose [JSON.parse] reads back that text then gives them back
    from [getSettings]. *)
Theorem settings_submit_refetches f ls :
  let s := form_settings f in
  let r := submit f ls in
  app_requests r = [config_request s]
  /\ app_storage r !! SETTINGS_KEY = Some (JSON_stringify (settings_to_js s))
  /\ (Str.nonempty (JSON_stringify (settings_to_js s)) = true ->
      JSON_parse (JSON_stringify (settings_to_js s)) = Some (settings_to_js s) ->
      getSettings JSON_parse (app_storage r) = Ok (settings_to_js s)).
Proof.
  intros s r.
  set (saved := invalidateCache (saveSettings JSON_stringify s ls)).
  assert (Hc : saved !! CACHE_KEY = None) by apply lookup_delete_eq.
  assert (Hk : saved !! SETTINGS_KEY = Some (JSON_stringify (settings_to_js s))).
  { unfold saved, invalidateCache, saveSettings.
    rewrite !lookup_delete_ne by done. apply lookup_insert_eq. }
  pose proof (fetch_uncached_requests Number_toString JSON_parse JSON_stringify
                Date_parse atob fetch now clock nowISO s saved Hc) as Hreq.
  pose proof (fetch_keeps_other_keys s saved SETTINGS_KEY ltac:(done)) as Hkeep.
  rewrite Hk in Hkeep.
  assert (Hr : app_requests r = [config_request s]
               /\ app_storage r = storage (fetchModels s saved)).
  { subst r. unfold Settings_handleSubmit, loadModels. fold s. fold saved.
    by destruct (outcome _). }
  destruct Hr as [Hr1 Hr2]. split; [done|]. rewrite Hr2. split; [done|].
  intros Hn Hp. unfold getSettings. rewrite Hkeep, Hn. simpl.
  unfold JSON_parse_or_throw. by rewrite Hp.
Qed.

(** X21. After [handleDisconnect] the page is in the status
    [disconnected] with the built-in models and neither settings nor
    cache entry are stored; a refresh in that state sends nothing and
    changes nothing. *)
Theorem disconnect_then_refresh_is_inert ls :
  let r := disconnect ls in
  r = mkAppRun (Decoded initialModels) disconnected None false
        (clearSettings ls) []
  /\ app_storage r !! SETTINGS_KEY = None
  /\ app_storage r !! CACHE_KEY = None
  /\ refresh (app_storage r) = Some r.
Proof.
  intros r. subst r. unfold Settings_handleDisconnect, loadModels.
  cbn [app_storage]. split; [done|].
  assert (Hs : clearSettings ls !! SETTINGS_KEY = None).
  { unfold clearSettings. rewrite lookup_delete_ne by done.
    apply lookup_delete_eq. }
  assert (Hc : clearSettings ls !! CACHE_KEY = None) by apply lookup_delete_eq.
  split; [done|]. split; [done|].
  rewrite refresh_unreadable.
  - unfold invalidateCache. by rewrite delete_id.
  - unfold unreadable. by rewrite Hs.
Qed.

End AppFacts.


(** X18 at a storage that holds settings and a cache entry, one second
    after the entry was written. *)
Lemma startup_serves_fresh_cache_witness :
  loadStored (fun _ => "") read_settings_or_entry (fun _ => "")
    (fun _ => Some year_2024) (fun _ => None) (fun _ => None)
    (year_2024 + 1000)%Z (fun _ => "") "" (fun _ => "") [] cached_storage
  = Some (mkAppRun (FromCache (JArr [])) connected None false cached_storage []).
Proof.
  apply (startup_serves_fresh_cache (fun _ => "") read_settings_or_entry
           (fun _ => "") (fun _ => Some year_2024) (fun _ => None)
           (fun _ => None) (year_2024 + 1000)%Z (fun _ => "") "" (fun _ => "")
           [] sample_settings cached_storage "entry" fresh_entry year_2024);
    try reflexivity.
  vm_compute. discriminate.
Defined.

(** X19 at a response of status 401. *)
Lemma refresh_reports_failure_witness :
  handleRefresh (fun _ => "") read_settings (fun _ => "") (fun _ => None)
    (fun _ => None) (fun _ => Some (mkResponse 401 "")) 0%Z (fun _ => "") ""
    (fun _ => "") [] settings_storage
  = Some (mkAppRun (Decoded []) connection_error (Some "Invalid GitHub token")
            false (invalidateCache settings_storage)
            [config_request sample_settings]).
Proof.
  exact (refresh_reports_failure (fun _ => "") read_settings (fun _ => "")
           (fun _ => None) (fun _ => None) (fun _ => Some (mkResponse 401 ""))
           0%Z (fun _ => "") "" (fun _ => "") [] sample_settings
           settings_storage (mkResponse 401 "") "Invalid GitHub token"
           eq_refl eq_refl eq_refl eq_refl).
Defined.

(** ** The file viewer *)

Section FileViewerFacts.

Variable Number_toString : float -> string.
Variable JSON_parse : string -> option JsValue.
Variable atob : string -> option string.
Variable fetch : Request -> option Response.
Variable host_message : Exn -> string.

Local Abbreviation load_file :=
  (loadFile Number_toString JSON_parse atob fetch host_message).

(** X22. The file viewer with stored settings [s], for a path that is not
    empty and a response that is not successful. When the page is not
    connected nothing is requested and no error is written; when it is,
    the one request is the file request, no content is shown, and the
    error written is [File not found] with the path for the status 404
    and [Failed to fetch file] with the status for any other. *)
Theorem file_viewer_reports_failure s ls path isConnected response :
  getSettings JSON_parse ls = Ok (settings_to_js s) ->
  Str.nonempty path = true ->
  fetch (config_request
           (mkSettings (repoOwner s) (repoName s) (branch s) path (token s)))
  = Some response ->
  ok response = false ->
  load_file (Some path) isConnected ls
  = if isConnected
    then mkFileLoad None
           (Some (if Nat.eqb (status_code response) 404
                  then "File not found: " +:+ path
                  else "Failed to fetch file: "
                         +:+ Str.of_nat (status_code response)))
           [config_request
              (mkSettings (repoOwner s) (repoName s) (branch s) path (token s))]
    else mkFileLoad None None [].
Proof.
  intros Hs Hp Hf Hok. unfold loadFile. rewrite Hp.
  destruct isConnected; [|done]. cbn [negb orb].
  rewrite (fetchFileContent_stored Number_toString JSON_parse atob fetch
             s path ls Hs).
  cbv zeta. rewrite Hf, Hok. unfold classify_file. simpl.
  by destruct (Nat.eqb (status_code response) 404).
Qed.

End FileViewerFacts.

(** X22 at a connected page and a response of status 404. *)
Lemma file_viewer_reports_failure_witness :
  loadFile (fun _ => "") read_settings (fun _ => None)
    (fun _ => Some (mkResponse 404 "")) (fun _ => "") (Some "README.md") true
    settings_storage
  = mkFileLoad None (Some "File not found: README.md")
      [config_request (mkSettings "o" "r" "main" "README.md" "")].
Proof.
  exact (file_viewer_reports_failure (fun _ => "") read_settings (fun _ => None)
           (fun _ => Some (mkResponse 404 "")) (fun _ => "") sample_settings
           settings_storage "README.md" true (mkResponse 404 "")
           eq_refl eq_refl eq_refl eq_refl).
Defined.

(** ** The user record *)

Section UserFacts.

Variable Number_toString : float -> string.
Variable JSON_parse : string -> option JsValue.
Variable JSON_stringify : JsValue -> string.
Variable Date_parse : string -> option Z.
Variable defaultUser : JsValue.

(** X23. The user record in the storage. Without a stored value, or with
    one that is not JSON, [loadUserFromStorage] returns the default user.
    After [saveUserToStorage(user)] it returns what the host's
    [JSON.parse] reads from the text written for [user]. Saving the user
    changes neither what [getSettings] nor what [getCache] returns. *)
Theorem user_record_stored ls user now :
  (unreadable JSON_parse ls USER_STORAGE_KEY ->
     loadUserFromStorage JSON_parse defaultUser ls = Ok defaultUser)
  /\ (forall read_back,
        Str.nonempty (JSON_stringify user) = true ->
        JSON_parse (JSON_stringify user) = Some read_back ->
        loadUserFromStorage JSON_parse defaultUser
          (saveUserToStorage JSON_stringify user ls) = Ok read_back)
  /\ getSettings JSON_parse (saveUserToStorage JSON_stringify user ls)
     = getSettings JSON_parse ls
  /\ getCache Number_toString JSON_parse Date_parse now
       (saveUserToStorage JSON_stringify user ls)
     = getCache Number_toString JSON_parse Date_parse now ls.
Proof.
  split; [|split; [|split]].
  - unfold unreadable, loadUserFromStorage.
    destruct (ls !! USER_STORAGE_KEY) as [stored|]; [|done].
    intros Hp. destruct (Str.nonempty stored); [|done].
    unfold JSON_parse_or_throw. by rewrite Hp.
  - intros read_back Hn Hp. unfold loadUserFromStorage, saveUserToStorage.
    rewrite lookup_insert_eq, Hn. unfold JSON_parse_or_throw. by rewrite Hp.
  - unfold getSettings, saveUserToStorage. by rewrite lookup_insert_ne.
  - unfold getCache, saveUserToStorage. by rewrite lookup_insert_ne.
Qed.

End UserFacts.

(** ** The list of models edited in the page *)

Lemma find_model_cons i m ms :
  find_model i (m :: ms)
  = if String.eqb (id m) i then Some m else find_model i ms.
Proof. reflexivity. Qed.

Lemma handleDelete_cons i m ms :
  handleDelete i (m :: ms)
  = if String.eqb (id m) i then handleDelete i ms else m :: handleDelete i ms.
Proof. unfold handleDelete. simpl. by destruct (String.eqb (id m) i). Qed.

Lemma handleSave_edit_cons now nowMs e d m ms :
  handleSave now nowMs (Some e) d (m :: ms)
  = (if String.eqb (id m) (id e) then updated_model m d now else m)
      :: handleSave now nowMs (Some e) d ms.
Proof. reflexivity. Qed.

(** X24. After [handleDelete(i)] no model has the identifier [i]: the
    lookup of [i] that the detail page makes finds nothing, and the lookup
    of any other identifier finds what it found before. When no model had
    the identifier the list is unchanged. *)
Theorem deleted_model_not_found i ms :
  find_model i (handleDelete i ms) = None
  /\ (forall j, j <> i -> find_model j (handleDelete i ms) = find_model j ms)
  /\ (find_model i ms = None -> handleDelete i ms = ms).
Proof.
  split; [|split].
  - induction ms as [|m ms IH]; [done|]. rewrite handleDelete_cons.
    destruct (String.eqb (id m) i) eqn:Hm; [done|].
    by rewrite find_model_cons, Hm.
  - intros j Hj. induction ms as [|m ms IH]; [done|].
    rewrite handleDelete_cons, (find_model_cons j m ms).
    destruct (String.eqb (id m) i) eqn:Hm.
    + apply String.eqb_eq in Hm.
      assert (Hne : String.eqb (id m) j = false)
        by (apply String.eqb_neq; congruence).
      by rewrite Hne.
    + by rewrite find_model_cons, IH.
  - induction ms as [|m ms IH]; [done|].
    rewrite find_model_cons, handleDelete_cons.
    destruct (String.eqb (id m) i); [done|].
    intros Hn. by rewrite IH.
Qed.

(** X25. Saving an edit of the model [e] keeps the identifiers and the
    creation dates of all models, in their order. The lookup of the
    identifier of [e] finds the model found before with the edited data
    and the new update time, and nothing when nothing was found; the
    lookup of any other identifier finds what it found before. When no
    model has the identifier of [e] the list is unchanged. *)
Theorem edit_preserves_identity now nowMs e d prev :
  let next := handleSave now nowMs (Some e) d prev in
  map id next = map id prev
  /\ map createdAt next = map createdAt prev
  /\ find_model (id e) next
     = option_map (fun m => updated_model m d now) (find_model (id e) prev)
  /\ (forall j, j <> id e -> find_model j next = find_model j prev)
  /\ (find_model (id e) prev = None -> next = prev).
Proof.
  intros next. subst next.
  split; [|split; [|split; [|split]]].
  - induction prev as [|m ms IH]; [done|].
    rewrite handleSave_edit_cons. cbn [map]. rewrite IH.
    by destruct (String.eqb (id m) (id e)).
  - induction prev as [|m ms IH]; [done|].
    rewrite handleSave_edit_cons. cbn [map]. rewrite IH.
    by destruct (String.eqb (id m) (id e)).
  - induction prev as [|m ms IH]; [done|].
    rewrite handleSave_edit_cons, !find_model_cons.
    destruct (String.eqb (id m) (id e)) eqn:Hm.
    + cbn [updated_model id]. by rewrite Hm.
    + rewrite Hm. exact IH.
  - intros j Hj. induction prev as [|m ms IH]; [done|].
    rewrite handleSave_edit_cons, !find_model_cons, IH.
    destruct (String.eqb (id m) (id e)) eqn:Hm; [|done].
    cbn [updated_model id]. apply String.eqb_eq in Hm.
    assert (Hne : String.eqb (id m) j = false)
      by (apply String.eqb_neq; congruence).
    by rewrite Hne.
  - induction prev as [|m ms IH]; [done|].
    rewrite find_model_cons, handleSave_edit_cons.
    destruct (String.eqb (id m) (id e)); [done|].
    intros Hn. by rewrite IH.
Qed.


Section ModelFormFacts.

Variable parseFloat : string -> float.

(** X27. An edit saved from the model form keeps the files of every
    model, since the form gives no [files] key; a model that has the
    identifier of the edited model afterwards holds the metrics of the
    form: none when both inputs are empty, otherwise the accuracy input
    divided by 100 and the latency input, each present when its input is
    not empty. *)
Theorem form_edit_keeps_files now nowMs e prev
    name version description framework status owner accuracy latency :
  let d := ModelForm_handleSubmit parseFloat name version description
             framework status owner accuracy latency in
  let next := handleSave now nowMs (Some e) d prev in
  map files next = map files prev
  /\ Forall (fun m' =>
               id m' = id e ->
               metrics m'
               = (if Str.nonempty accuracy || Str.nonempty latency
                  then Some (mkMetrics
                               (if Str.nonempty accuracy
                                then Some (parseFloat accuracy / 100)%float
                                else None)
                               (if Str.nonempty latency
                                then Some (parseFloat latency) else None))
                  else None)
               /\ updatedAt m' = now) next.
Proof.
  intros d next. subst d next. split.
  - induction prev as [|m ms IH]; [done|].
    rewrite handleSave_edit_cons. cbn [map]. rewrite IH.
    by destruct (String.eqb (id m) (id e)).
  - induction prev as [|m ms IH]; [by apply Forall_nil|].
    rewrite handleSave_edit_cons.
    apply Forall_cons. split; [|exact IH].
    destruct (String.eqb (id m) (id e)) eqn:Hm.
    + intros _. done.
    + intros He. apply String.eqb_neq in Hm. done.
Qed.

End ModelFormFacts.

(** ** The search of the list *)

Lemma lower_unit_idem c : lower_unit (lower_unit c) = lower_unit c.
Proof. destruct c as [[] [] [] [] [] [] [] []]; reflexivity. Qed.

Lemma toLowerCase_idem s : toLowerCase (toLowerCase s) = toLowerCase s.
Proof.
  induction s as [|c s IH]; [done|]. simpl. by rewrite lower_unit_idem, IH.
Qed.



Lemma includes_empty s : includes_text "" s = true.
Proof. by destruct s. Qed.

Lemma status_name_inj a b :
  String.eqb (status_name a) (status_name b) = true -> a = b.
Proof. by destruct a, b. Qed.

Lemma matchesStatus_spec f m :
  matchesStatus f m = true <-> f = AllStatus \/ f = OnlyStatus (status m).
Proof.
  unfold matchesStatus. destruct f as [|st]; simpl.
  - split; [by left|done].
  - assert (Hall : String.eqb (status_name st) "all" = false) by (by destruct st).
    rewrite Hall. simpl. split.
    + intros H. right. by rewrite (status_name_inj _ _ H).
    + intros [|[= ->]]; [done|]. apply String.eqb_refl.
Qed.

(** X28. The search of the list ignores the letter case of the term: the
    term and its lower case select the same models. *)
Theorem search_ignores_case term f ms :
  filteredModels (toLowerCase term) f ms = filteredModels term f ms.
Proof.
  unfold filteredModels, matchesSearch. by rewrite toLowerCase_idem.
Qed.



(** X30. The status filter of the list. With an empty term and the filter
    [all] every model is shown. With an empty term and a status, the
    models shown are exactly the models of that status. With any term and
    filter, a model shown is a model of the list that the filter admits. *)
Theorem status_filter_exact ms :
  filteredModels "" AllStatus ms = ms
  /\ (forall st m, In m (filteredModels "" (OnlyStatus st) ms)
                   <-> In m ms /\ status m = st)
  /\ (forall term f m, In m (filteredModels term f ms) ->
                       In m ms /\ (f = AllStatus \/ f = OnlyStatus (status m))).
Proof.
  assert (Hempty : forall m, matchesSearch "" m = true).
  { intros m. unfold matchesSearch. cbn [toLowerCase].
    by rewrite includes_empty. }
  split; [|split].
  - unfold filteredModels. induction ms as [|m ms IH]; [done|]. simpl.
    rewrite Hempty, IH. done.
  - intros st m. unfold filteredModels. rewrite filter_In, Hempty.
    cbn [andb]. rewrite matchesStatus_spec. split.
    + intros [Hin [|[= ->]]]; done.
    + intros [Hin <-]. split; [done|]. by right.
  - intros term f m. unfold filteredModels. rewrite filter_In.
    intros [Hin [_ Hf]%andb_true_iff]. split; [done|].
    by apply matchesStatus_spec.
Qed.
